(** * Image-to-PDF conversion service: the Express backend

A shallow embedding of the backend entry point (the Express application
with its multer upload stage, the [compressImage] adapter, the
[/convert] and [/conversions] handlers and the error middleware), and
the properties of the conversion pipeline proved on it.

Conventions of the embedding:
- a JavaScript string is the list of its UTF-16 code units;
- a [Buffer] is the list of its bytes;
- the third-party collaborators (sharp, pdfkit's image decoder, the
  Unicode upper-case table, the Supabase store) are parameters: the
  handlers are proved correct for every behaviour of theirs;
- handlers run in a small state-and-exception monad over the response
  object, the PDF document being written and the rows sent to the store;
- [console] output is not modelled. *)

From Stdlib Require Import NArith ZArith List String Ascii Bool Lia.
From stdpp Require Import base option list strings gmap.

Set Warnings "-register-all".
Local Open Scope N_scope.

(** ** JavaScript values *)

Module JS.

(** A string is a sequence of UTF-16 code units. *)
Definition jsstring := list N.

(** The code units of an ASCII literal. *)
Definition js (s : string) : jsstring :=
  map N_of_ascii (list_ascii_of_string s).

Definition unit_eqb (a b : N) : bool := N.eqb a b.

Fixpoint str_eqb (a b : jsstring) : bool :=
  match a, b with
  | [], [] => true
  | x :: a', y :: b' => unit_eqb x y && str_eqb a' b'
  | _, _ => false
  end.

(** [String.prototype.startsWith]. *)
Fixpoint startsWith (s prefix : jsstring) : bool :=
  match prefix, s with
  | [], _ => true
  | p :: prefix', c :: s' => unit_eqb c p && startsWith s' prefix'
  | _ :: _, [] => false
  end.

(** The value of a multipart text field as the handler sees it after
    destructuring [req.body]: missing, a string, or (a field name that is
    repeated or carries brackets) an array or object, which is no string. *)
Inductive jsval :=
| JUndefined
| JString (s : jsstring)
| JNonString.

(** Destructuring default: [const { x = d } = obj] uses [d] only when the
    property is [undefined]. *)
Definition with_default (d : jsval) (v : jsval) : jsval :=
  match v with
| JUndefined => d
  | _ => v
  end.

(** Strict equality of a value with a string literal, as a [switch] case
    label compares. *)
Definition strict_eq_str (v : jsval) (lit : jsstring) : bool :=
  match v with
| JString s => str_eqb s lit
  | _ => false
  end.

(** JSON values sent in response bodies. *)
Inductive json :=
| JNull
| JNum (n : N)
| JStr (s : jsstring)
| JArr (items : list json)
| JObj (fields : list (string * json)).

Definition json_of_jsval (v : jsval) : json :=
  match v with
  | JString s => JStr s
  | _ => JNull
  end.

(** Truthiness of a JSON value: [null], [0] and the empty string are
    falsy, every array and object is truthy. *)
Definition json_truthy (v : json) : bool :=
  match v with
  | JNull => false
  | JNum n => negb (N.eqb n 0)
  | JStr s => match s with [] => false | _ => true end
  | JArr _ | JObj _ => true
  end.

(** [data || []], with [None] for a [data] that is [null] or missing. *)
Definition or_empty_array (data : option json) : json :=
  match data with
  | Some v => if json_truthy v then v else JArr []
  | None => JArr []
  end.

End JS.
Export JS.

(** ** Regular expressions: one character class, flags [g] and [i] *)

Module RegExp.

Inductive class_item :=
| Single (c : N)
| Range (lo hi : N).

Record char_class := { negated : bool; items : list class_item }.

(** The code units an item stands for. *)
Definition members (it : class_item) : list N :=
  match it with
  | Single c => [c]
  | Range lo hi => map (fun k => lo + N.of_nat k) (seq 0 (N.to_nat (hi + 1 - lo)))
  end.

Definition class_members (cls : char_class) : list N :=
  flat_map members (items cls).

(** [toUpperCase] of a one-unit ASCII string: only a-z change. *)
Definition ascii_upper (ch : N) : N :=
  if (97 <=? ch) && (ch <=? 122) then ch - 32 else ch.

Section Matching.

(** [String.prototype.toUpperCase] applied to the one-unit string of a
    code unit at or above 128: the Unicode table, left abstract. *)
Variable upper_table : N -> list N.

Definition toUpperCase1 (ch : N) : list N :=
  if ch <? 128 then [ascii_upper ch] else upper_table ch.

(** ECMAScript [Canonicalize] for a pattern without the [u] flag. *)
Definition Canonicalize (ignoreCase : bool) (ch : N) : N :=
  if negb ignoreCase then ch
  else match toUpperCase1 ch with
       | [cu] => if (128 <=? ch) && (cu <? 128) then ch else cu
       | _ => ch
       end.

(** [CharacterSetMatcher]: a member of the class has the same canonical
    form as the input unit; a negated class inverts the answer. *)
Definition class_contains (ignoreCase : bool) (cls : char_class) (ch : N) : bool :=
  existsb (fun a => N.eqb (Canonicalize ignoreCase a) (Canonicalize ignoreCase ch))
          (class_members cls).

Definition class_matches (ignoreCase : bool) (cls : char_class) (ch : N) : bool :=
  xorb (negated cls) (class_contains ignoreCase cls ch).

(** [s.replace(/[...]/g, replacement)] for a pattern that is a single
    character class and a replacement without [$]: every matching unit
    is replaced, the others are kept. *)
Definition replace_global (ignoreCase : bool) (cls : char_class)
           (replacement : jsstring) (s : jsstring) : jsstring :=
  flat_map (fun ch => if class_matches ignoreCase cls ch then replacement else [ch]) s.

End Matching.

End RegExp.
Export RegExp.

(** ** Buffers, uploaded files, errors *)

Definition Buffer := list Byte.byte.

(** One file part of the multipart form, as multer's memory storage hands
    it over ([mimetype] is the declared type as multer reports it). *)
Record File := {
  fieldname : jsstring;
  originalname : jsstring;
  mimetype : jsstring;
  buffer : Buffer
}.

(** What [doc.openImage] returns: the decoded image with its pixel size. *)
Record Image := {
  width : N;
  height : N;
  image_data : Buffer
}.

(** An exception value: whether it is an instance of [multer.MulterError],
    its [code] and its [message]. *)
Record jserror := {
  is_MulterError : bool;
  code : jsstring;
  message : jsstring
}.

Definition Error (msg : string) : jserror :=
  {| is_MulterError := false; code := []; message := js msg |}.

Definition MulterError (c msg : string) : jserror :=
  {| is_MulterError := true; code := js c; message := js msg |}.

(** A reply of the Supabase client to one awaited call: the promise rejects
    (the [await] throws), or it resolves to [{ data, error }]. *)
Inductive store_reply :=
| Rejects (e : jserror)
| Resolves (data : option json) (error : option jserror).

(** The payload of one insert into the [conversions] table. *)
Record conversion_row := {
  row_filename : jsstring;
  row_file_count : N;
  row_compression_level : jsval;
  row_user_id : jsstring;
  row_created_at : jsstring
}.

(** ** The response object and the PDF document *)

(** What the PDF writer puts on its output stream: the file header, then
    for each page, once it is written, the page and the images drawn on
    it, then the end of the file. [PdfImage] is the drawing of an image in
    the content of its page; the byte layout of pdfkit, the bytes of the
    image data included, is not modelled. *)
Inductive pdf_op :=
| PdfHeader
| PdfPage (w h : N)
| PdfImage (img : Image) (x y : N)
| PdfEnd.

Inductive chunk :=
| Json (v : json)
| PdfBytes (op : pdf_op).

Record response := {
  statusCode : N;
  headers : gmap string jsstring;
  headersSent : bool;
  body : list chunk;
  ended : bool
}.

Record page := {
  page_size : N * N;
  page_images : list (Image * (N * N))
}.

(** A pdfkit document: its pages, the output written but not yet read by
    the consumer of the stream, whether it is piped into the response and
    whether [end()] was called. *)
Record PDFDocument := {
  pages : list page;
  pending : list pdf_op;
  piped : bool;
  finalized : bool
}.

Record world := {
  res : response;
  doc : option PDFDocument;
  inserted : list conversion_row
}.

Definition fresh_response : response :=
  {| statusCode := 200; headers := ∅; headersSent := false; body := []; ended := false |}.

Definition initial_world : world :=
  {| res := fresh_response; doc := None; inserted := [] |}.

Definition set_res (r : response) (w : world) : world :=
  {| res := r; doc := doc w; inserted := inserted w |}.

Definition set_doc (d : PDFDocument) (w : world) : world :=
  {| res := res w; doc := Some d; inserted := inserted w |}.

(** ** The monad of handlers: state and exceptions *)

Inductive result (A : Type) :=
| Returns (a : A)
| Throws (e : jserror).
Arguments Returns {A} a.
Arguments Throws {A} e.

Definition M (A : Type) : Type := world -> result A * world.

#[global] Instance M_ret : MRet M := fun A a w => (Returns a, w).

#[global] Instance M_bind : MBind M := fun A B f m w =>
  match m w with
  | (Returns a, w') => f a w'
  | (Throws e, w') => (Throws e, w')
  end.

Definition throw {A} (e : jserror) : M A := fun w => (Throws e, w).

(** [try { m } catch (err) { handler err }] *)
Definition try_catch {A} (m : M A) (handler : jserror -> M A) : M A := fun w =>
  match m w with
  | (Returns a, w') => (Returns a, w')
  | (Throws e, w') => handler e w'
  end.

(** [for (const x of xs) { body x }] *)
Fixpoint for_of {A} (xs : list A) (body : A -> M unit) : M unit :=
  match xs with
  | [] => mret tt
  | x :: rest => body x ;; for_of rest body
  end.

(** *** The stream from the document into the response

    [doc.pipe(res)] does not copy anything at once: the stream delivers what
    the document has written when the handler next gives up control, which
    it does at every [await] and when it returns. The first delivered chunk
    sends the response headers; the end of a finalized document ends the
    response. *)

Definition is_nil {A} (l : list A) : bool :=
  match l with [] => true | _ => false end.

Definition deliver (w : world) : world :=
  match doc w with
  | Some d =>
      if piped d && negb (ended (res w)) then
        let r := res w in
        {| res := {| statusCode := statusCode r;
                     headers := headers r;
                     headersSent := headersSent r || negb (is_nil (pending d)) || finalized d;
                     body := body r ++ map PdfBytes (pending d);
                     ended := finalized d |};
           doc := Some {| pages := pages d; pending := []; piped := true;
                          finalized := finalized d |};
           inserted := inserted w |}
      else w
  | None => w
  end.

(** [await m]: control goes back to the event loop, then [m] settles. *)
Definition await {A} (m : M A) : M A := fun w => m (deliver w).

(** What the caller has received once the handler [m] has run and the
    event loop has drained. *)
Definition serve (m : M unit) : world := deliver (snd (m initial_world)).

(** *** Express response methods *)

Definition headers_sent_error : jserror :=
  {| is_MulterError := false; code := js "ERR_HTTP_HEADERS_SENT";
     message := js "Cannot set headers after they are sent to the client" |}.

Definition set_statusCode (c : N) (r : response) : response :=
  {| statusCode := c; headers := headers r; headersSent := headersSent r;
     body := body r; ended := ended r |}.

Definition set_header (name : string) (value : jsstring) (r : response) : response :=
  {| statusCode := statusCode r; headers := <[name := value]> (headers r);
     headersSent := headersSent r; body := body r; ended := ended r |}.

Definition send_json (v : json) (r : response) : response :=
  {| statusCode := statusCode r;
     headers := match headers r !! "Content-Type"%string with
                | Some _ => headers r
                | None => <["Content-Type"%string := js "application/json; charset=utf-8"]> (headers r)
                end;
     headersSent := true;
     body := body r ++ [Json v];
     ended := true |}.

(** [res.status(c)] *)
Definition res_status (c : N) : M unit := fun w =>
  (Returns tt, set_res (set_statusCode c (res w)) w).

(** [res.setHeader(name, value)] *)
Definition res_setHeader (name : string) (value : jsstring) : M unit := fun w =>
  if headersSent (res w) then (Throws headers_sent_error, w)
  else (Returns tt, set_res (set_header name value (res w)) w).

(** [res.json(v)]: sets the JSON content type unless one is set, writes the
    body and ends the response. *)
Definition res_json (v : json) : M unit := fun w =>
  if headersSent (res w) then (Throws headers_sent_error, w)
  else (Returns tt, set_res (send_json v (res w)) w).

(** [res.headersSent] *)
Definition res_headersSent : M bool := fun w => (Returns (headersSent (res w)), w).

(** *** pdfkit document methods *)

Definition no_document : jserror := Error "Cannot read properties of undefined".

Definition with_doc {A} (f : PDFDocument -> result A * PDFDocument) : M A := fun w =>
  match doc w with
  | Some d => let (r, d') := f d in (r, set_doc d' w)
  | None => (Throws no_document, w)
  end.

(** [new PDFDocument({ autoFirstPage: false })]: no page, the file header
    written to the (not yet consumed) output. *)
Definition new_PDFDocument : M unit := fun w =>
  (Returns tt,
   set_doc {| pages := []; pending := [PdfHeader]; piped := false; finalized := false |} w).

(** [doc.pipe(res)] *)
Definition doc_pipe : M unit :=
  with_doc (fun d =>
    (Returns tt, {| pages := pages d; pending := pending d; piped := true;
                    finalized := finalized d |})).

(** What a page puts on the output when it is written: the page with its
    size, then the images drawn on it. *)
Definition page_output (p : page) : list pdf_op :=
  PdfPage (fst (page_size p)) (snd (page_size p))
  :: map (fun placed => PdfImage (fst placed) (fst (snd placed)) (snd (snd placed)))
         (page_images p).

(** pdfkit keeps the current page (the last one) in memory and writes it
    when the next page is added or the document is ended. *)
Definition flush_page (ps : list page) : list pdf_op :=
  match last ps with
  | Some p => page_output p
  | None => []
  end.

(** [doc.addPage({ size: [w, h] })]: writes the page before, opens the new
    one. *)
Definition doc_addPage (size : N * N) : M unit :=
  with_doc (fun d =>
    (Returns tt,
     {| pages := pages d ++ [{| page_size := size; page_images := [] |}];
        pending := pending d ++ flush_page (pages d);
        piped := piped d; finalized := finalized d |})).

Fixpoint on_last_page (f : page -> page) (ps : list page) : list page :=
  match ps with
  | [] => []
  | [p] => [f p]
  | p :: rest => p :: on_last_page f rest
  end.

Definition place (img : Image) (x y : N) (p : page) : page :=
  {| page_size := page_size p; page_images := page_images p ++ [(img, (x, y))] |}.

(** [doc.image(img, x, y)]: draws on the current (last) page, which is
    written later. *)
Definition doc_image (img : Image) (x y : N) : M unit :=
  with_doc (fun d =>
    if is_nil (pages d) then (Throws (Error "Cannot read properties of null"), d)
    else
      (Returns tt,
       {| pages := on_last_page (place img x y) (pages d);
          pending := pending d;
          piped := piped d; finalized := finalized d |})).

(** [doc.end()]: writes the last page, then the end of the file. *)
Definition doc_end : M unit :=
  with_doc (fun d =>
    (Returns tt,
     {| pages := pages d; pending := pending d ++ flush_page (pages d) ++ [PdfEnd];
        piped := piped d; finalized := true |})).

(** ** The upload stage: [multer({ storage, limits, fileFilter })] *)

Module limits.

(** [fileSize]: 10MB limit per file *)
Definition fileSize : N := 10 * 1024 * 1024.

(** [files]: maximum 20 files *)
Definition files : nat := 20.

End limits.

(** [fileFilter]: only image files are allowed. [None] is [cb(null, true)],
    [Some e] is [cb(e, false)]. *)
Definition fileFilter (file : File) : option jserror :=
  if startsWith (mimetype file) (js "image/") then None
  else Some (Error "Only image files are allowed").

(** A multipart request to [POST /convert]. *)
Record Request := {
  body_compressionLevel : jsval;
  body_filename : jsval;
  header_user_id : option jsstring;
  parts : list File
}.

(** ** Start-up: the optional Supabase client *)

Record Env := {
  SUPABASE_URL : option jsstring;
  SUPABASE_ANON_KEY : option jsstring
}.

(** Truthiness of an environment variable: set and not empty. *)
Definition truthy (v : option jsstring) : bool :=
  match v with
  | Some (_ :: _) => true
  | _ => false
  end.

Definition is_string (v : option jsstring) (lit : string) : bool :=
  match v with
  | Some s => str_eqb s (js lit)
  | None => false
  end.

(** The value of [supabaseConnected] after the module has loaded.
    [import_ok]: the dynamic import succeeds; [createClient_ok]:
    [createClient] does not throw; [probe]: the reply to the test query. The
    flag is set when the awaited probe does not throw, whatever it resolves
    to, and is never assigned again. *)
Definition startup (import_ok : bool) (env : Env) (createClient_ok : bool)
                   (probe : store_reply) : bool :=
  if negb import_ok then false
  else if truthy (SUPABASE_URL env) && truthy (SUPABASE_ANON_KEY env)
          && negb (is_string (SUPABASE_URL env) "https://your-project-id.supabase.co")
          && negb (is_string (SUPABASE_URL env) "https://your-project.supabase.co")
  then
    if negb createClient_ok then false
    else match probe with
         | Rejects _ => false
         | Resolves _ _ => true
         end
  else false.

(** ** The browser client *)

Module App.

(** A file picked or dropped in the browser: name, declared type, content. *)
Record BrowserFile := {
  file_name : jsstring;
  file_type : jsstring;
  file_bytes : Buffer
}.

(** [setCompressionPreset(preset)]: the level it stores in the state. *)
Definition setCompressionPreset (preset : jsval) : jsstring :=
  if strict_eq_str preset (js "ultra") then js "ultra"
  else if strict_eq_str preset (js "compressed") then js "compressed"
  else js "normal".

(** The form [handleConvert] posts to [/convert]: every file appended under
    [images], then the two text fields, always present; no [user-id]
    header. The multipart encoding is taken to deliver the entries as they
    are. *)
Definition handleConvert (files : list BrowserFile) (compressionLevel filename : jsstring)
  : Request :=
  {| body_compressionLevel := JString compressionLevel;
     body_filename := JString filename;
     header_user_id := None;
     parts := map (fun f => {| fieldname := js "images"; originalname := file_name f;
                               mimetype := file_type f; buffer := file_bytes f |})
                  files |}.

(** The name the client gives the download: [`${filename}.pdf`]. *)
Definition download_name (filename : jsstring) : jsstring := filename ++ js ".pdf".

End App.

(** ** The [conversions] table *)

Module Schema.

(** [compression_level TEXT NOT NULL
     CHECK (compression_level IN ('normal', 'compressed', 'ultra'))]:
    whether the table takes a row with this level. *)
Definition compression_level_check (level : jsval) : bool :=
  match level with
  | JString s =>
      str_eqb s (js "normal") || str_eqb s (js "compressed") || str_eqb s (js "ultra")
  | _ => false
  end.

End Schema.

(** ** Logging a conversion: [POST /conversions] *)

(** [data[0]] has no value ([undefined]) or is an element. *)
Inductive element :=
| NoElement
| ElementOf (v : json).

(** The property ["0"] of an object: its last binding. *)
Definition property_0 (fields : list (string * json)) : element :=
  fold_left (fun found kv => if String.eqb (fst kv) "0" then ElementOf (snd kv) else found)
            fields NoElement.

(** [data[0]], which throws on [null]. *)
Definition first_element (data : option json) : jserror + element :=
  match data with
  | None | Some JNull => inl (Error "Cannot read properties of null (reading '0')")
  | Some (JArr (x :: _)) => inr (ElementOf x)
  | Some (JStr (c :: _)) => inr (ElementOf (JStr [c]))
  | Some (JObj fields) => inr (property_0 fields)
  | Some (JArr []) | Some (JStr []) | Some (JNum _) => inr NoElement
  end.

(** [res.json(undefined)]: the JSON content type, an empty body, the
    response ended. *)
Definition send_nothing (r : response) : response :=
  {| statusCode := statusCode r;
     headers := match headers r !! "Content-Type"%string with
                | Some _ => headers r
                | None => <["Content-Type"%string := js "application/json; charset=utf-8"]> (headers r)
                end;
     headersSent := true;
     body := body r;
     ended := true |}.

Definition res_json_element (x : element) : M unit :=
  match x with
  | ElementOf v => res_json v
  | NoElement => fun w =>
      if headersSent (res w) then (Throws headers_sent_error, w)
      else (Returns tt, set_res (send_nothing (res w)) w)
  end.

(** One awaited call of the store. *)
Definition supabase_call (reply : store_reply) : M store_reply := fun w =>
  match reply with
  | Rejects e => (Throws e, w)
  | Resolves _ _ => (Returns reply, w)
  end.

Section LogConversion.

(** The values of the properties of the JSON request body: any JavaScript
    value, [undefined] for a missing property; their truthiness; the value
    of a string. *)
Variable Value : Type.
Variable truthy_value : Value -> bool.
Variable string_value : jsstring -> Value.

(** The four properties the handler reads from [req.body], the parsed JSON
    object of the request. *)
Record log_body := {
  log_filename : Value;
  log_file_count : Value;
  log_compression_level : Value;
  log_user_id : Value
}.

(** The object the handler inserts. *)
Record log_row := {
  ins_filename : Value;
  ins_file_count : Value;
  ins_compression_level : Value;
  ins_user_id : Value;
  ins_created_at : jsstring
}.

(** The handler of [POST /conversions]. [store] is what the store answers
    to the insert of a row, [now] the value of
    [new Date().toISOString()]. *)
Definition log_conversion (supabaseConnected : bool) (store : log_row -> store_reply)
           (now : jsstring) (body : log_body) : M unit :=
  try_catch
    (if negb supabaseConnected then
       res_json (JObj [("message"%string, JStr (js "Database not available"))])
     else
       reply ← await (supabase_call
                  (store {| ins_filename := log_filename body;
                            ins_file_count := log_file_count body;
                            ins_compression_level := log_compression_level body;
                            ins_user_id := if truthy_value (log_user_id body)
                                           then log_user_id body
                                           else string_value (js "anonymous");
                            ins_created_at := now |}));
       match reply with
       | Resolves data (Some error) => throw error
       | Resolves data None =>
           match first_element data with
           | inr x => res_json_element x
           | inl e => throw e
           end
       | Rejects e => throw e
       end)
    (fun err =>
       res_status 500 ;;
       res_json (JObj [("error"%string, JStr (js "Failed to log conversion"))])).

(** The row the handler inserts for a body. *)
Definition logged_row (now : jsstring) (body : log_body) : log_row :=
  {| ins_filename := log_filename body;
     ins_file_count := log_file_count body;
     ins_compression_level := log_compression_level body;
     ins_user_id := if truthy_value (log_user_id body)
                    then log_user_id body
                    else string_value (js "anonymous");
     ins_created_at := now |}.

End LogConversion.

(** ** The database restore script *)

Module Restore.

(** What the script finds when it runs: its first argument, whether the
    backup file exists, whether the Supabase CLI is installed, the
    character read as confirmation, and the success of the commands it
    runs. *)
Record Run := {
  argument : string;
  backup_exists : bool;
  supabase_cli : bool;
  REPLY : string;
  reset_ok : bool;
  psql_ok : bool;
  shell_ok : bool
}.

(** The commands that touch the database. *)
Inductive command :=
| DbReset
| PsqlRestore (file : string)
| ShellRestore (file : string)
| CountConversions.

(** [$REPLY =~ ^[Yy]$] *)
Definition confirmed (reply : string) : bool :=
  String.eqb reply "y" || String.eqb reply "Y".

(** The script: the commands it runs, in order, and its exit status. *)
Definition restore (r : Run) : list command * N :=
  if String.eqb (argument r) "" then ([], 1)
  else if negb (backup_exists r) then ([], 1)
  else if negb (supabase_cli r) then ([], 1)
  else if negb (confirmed (REPLY r)) then ([], 0)
  else if negb (reset_ok r) then ([DbReset], 1)
  else if psql_ok r then
    ([DbReset; PsqlRestore (argument r); CountConversions], 0)
  else if shell_ok r then
    ([DbReset; PsqlRestore (argument r); ShellRestore (argument r); CountConversions], 0)
  else ([DbReset; PsqlRestore (argument r); ShellRestore (argument r)], 1).

End Restore.

(** ** Sample collaborators and requests

    Concrete stand-ins for the collaborators, used to run the handlers on
    explicit requests. *)

Module Sample.

(** A table without case pairs above ASCII. *)
Definition no_case_pairs : N -> list N := fun ch => [ch].

(** A decoder that accepts bytes opening with the JPEG marker [FF D8] and
    takes width and height from the two bytes that follow. *)
Definition decoder (b : Buffer) : jserror + Image :=
  match b with
  | Byte.xff :: Byte.xd8 :: w :: h :: _ =>
      inr {| width := Byte.to_N w; height := Byte.to_N h; image_data := b |}
  | _ => inl (Error "Unknown image format.")
  end.

(** An encoder that re-encodes the same images when their fifth byte is 1,
    keeping the size and writing the quality in the fifth byte, and rejects
    everything else. *)
Definition encoder (b : Buffer) (quality : N) (progressive : bool) : jserror + Buffer :=
  match b with
  | Byte.xff :: Byte.xd8 :: w :: h :: Byte.x01 :: _ =>
      inr [Byte.xff; Byte.xd8; w; h; default Byte.x00 (Byte.of_N quality)]
  | _ => inl (Error "Input buffer contains unsupported image format")
  end.

Definition upload (type : string) (bytes : Buffer) : File :=
  {| fieldname := js "images"; originalname := js "upload";
     mimetype := js type; buffer := bytes |}.

(** A 4x3 image both collaborators handle. *)
Definition photo : File :=
  upload "image/jpeg" [Byte.xff; Byte.xd8; Byte.x04; Byte.x03; Byte.x01].

(** A 2x2 image the decoder reads and the encoder rejects. *)
Definition odd_photo : File :=
  upload "image/jpeg" [Byte.xff; Byte.xd8; Byte.x02; Byte.x02; Byte.x00].

(** Bytes declared as an image that neither collaborator can read. *)
Definition garbage : File :=
  upload "image/png" [Byte.x00; Byte.x01].

(** A file that does not claim to be an image. *)
Definition notes : File :=
  upload "text/plain" [Byte.x68; Byte.x69].

Definition form (level name : jsval) (uploads : list File) : Request :=
  {| body_compressionLevel := level; body_filename := name;
     header_user_id := None; parts := uploads |}.

Definition timestamp : jsstring := js "2024-01-01T00:00:00.000Z".

Definition network_error : jserror := Error "fetch failed".

End Sample.

(** ** More sample data *)

Module Fixtures.

(** Twenty-one readable uploads. *)
Definition too_many : list File := repeat Sample.photo 21.


(** The behaviour of multer 1.4.5-lts.1 at the size limit. *)
Definition full_size_refused : bool := true.

Definition supabase_env : Env :=
  {| SUPABASE_URL := Some (js "https://db.example.supabase.co");
     SUPABASE_ANON_KEY := Some (js "anon-key") |}.

Definition placeholder_env : Env :=
  {| SUPABASE_URL := Some (js "https://your-project.supabase.co");
     SUPABASE_ANON_KEY := Some (js "anon-key") |}.

End Fixtures.

(** ** The application *)

Section Server.

(** The Unicode upper-case table used by case-insensitive matching. *)
Variable upper_table : N -> list N.

(** [sharp(buffer).jpeg({ quality, progressive }).toBuffer()]: the
    re-encoded bytes, or the error the promise rejects with. *)
Variable sharp_jpeg : Buffer -> N -> bool -> jserror + Buffer.

(** pdfkit's image decoder behind [doc.openImage]: the image, or the error
    thrown for bytes it cannot decode. *)
Variable openImage : Buffer -> jserror + Image.

(** Whether the installed multer refuses a file of exactly
    [limits.fileSize] bytes (multer 1.4.5-lts.1 does; the repository does
    not fix the version). A longer file is refused either way. *)
Variable full_size_refused : bool.

Definition too_large (size : N) : bool :=
  if full_size_refused then limits.fileSize <=? size else limits.fileSize <? size.

(** [upload.array("images")]: multer reads the file parts in the order of
    the form and stops at the first one it refuses: a part beyond
    [limits.files], a part under another field name, a part the filter
    refuses, a part too large for [limits.fileSize]. [seen] counts the
    parts read so far. The refusal goes to the error middleware; otherwise
    the files become [req.files]. *)
Fixpoint upload_array (seen : nat) (parts : list File) : jserror + list File :=
  match parts with
  | [] => inr []
  | file :: rest =>
      if Nat.leb limits.files seen then inl (MulterError "LIMIT_FILE_COUNT" "Too many files")
      else if negb (str_eqb (fieldname file) (js "images"))
      then inl (MulterError "LIMIT_UNEXPECTED_FILE" "Unexpected field")
      else match fileFilter file with
           | Some e => inl e
           | None =>
               if too_large (N.of_nat (length (buffer file)))
               then inl (MulterError "LIMIT_FILE_SIZE" "File too large")
               else match upload_array (S seen) rest with
                    | inl e => inl e
                    | inr accepted => inr (file :: accepted)
                    end
           end
  end.

Definition sharp_toBuffer (buffer : Buffer) (quality : N) (progressive : bool) : M Buffer :=
  fun w => match sharp_jpeg buffer quality progressive with
           | inr out => (Returns out, w)
           | inl e => (Throws e, w)
           end.

(** The [switch] of [compressImage]. *)
Definition quality_of (compressionLevel : jsval) : N :=
  if strict_eq_str compressionLevel (js "ultra") then 30
  else if strict_eq_str compressionLevel (js "compressed") then 60
  else if strict_eq_str compressionLevel (js "normal") then 90
  else 90.

(** [compressImage] *)
Definition compressImage (buffer : Buffer) (compressionLevel : jsval) : M Buffer :=
  let quality := quality_of compressionLevel in
  try_catch (await (sharp_toBuffer buffer quality true))
            (fun err => mret buffer).

(** [doc.openImage(buffer)] *)
Definition doc_openImage (buffer : Buffer) : M Image :=
  with_doc (fun d =>
    match openImage buffer with
    | inr img => (Returns img, d)
    | inl e => (Throws e, d)
    end).

(** [filename.replace(/[^a-z0-9_-]/gi, '_')] on the field value: a value
    that is no string has no [replace] method. *)
Definition unsafe_class : char_class :=
  {| negated := true;
     items := [Range 97 122; Range 48 57; Single 95; Single 45] |}.

Definition sanitize (filename : jsstring) : jsstring :=
  replace_global upper_table true unsafe_class (js "_") filename.

Definition filename_replace (filename : jsval) : M jsstring :=
  match filename with
  | JString s => mret (sanitize s)
  | _ => throw (Error "filename.replace is not a function")
  end.

(** The insert of the audit row; the row sent is recorded. *)
Definition supabase_insert (row : conversion_row) (reply : store_reply) : M store_reply :=
  fun w =>
    let w' := {| res := res w; doc := doc w; inserted := inserted w ++ [row] |} in
    match reply with
    | Rejects e => (Throws e, w')
    | Resolves _ _ => (Returns reply, w')
    end.

(** The select of the history reader. *)
Definition supabase_select (reply : store_reply) : M store_reply :=
  fun w =>
    match reply with
    | Rejects e => (Throws e, w)
    | Resolves _ _ => (Returns reply, w)
    end.

Definition quote : jsstring := [34].

Definition or_anonymous (v : option jsstring) : jsstring :=
  if truthy v then default [] v else js "anonymous".

(** The handler of [POST /convert], run on [req.files] once the upload
    stage has accepted the request. [supabaseConnected] is the module's
    flag, [insert_reply] what the store answers to the insert, [now] the
    value of [new Date().toISOString()]. *)
Definition convert_handler (supabaseConnected : bool) (insert_reply : store_reply)
           (now : jsstring) (req : Request) (req_files : list File) : M unit :=
  try_catch
    (let compressionLevel := with_default (JString (js "normal")) (body_compressionLevel req) in
     let filename := with_default (JString (js "converted")) (body_filename req) in
     if is_nil req_files then
       res_status 400 ;; res_json (JObj [("error"%string, JStr (js "No images provided"))])
     else
       replaced ← filename_replace filename;
       let sanitizedFilename := replaced ++ js ".pdf" in
       res_setHeader "Content-Type" (js "application/pdf") ;;
       res_setHeader "Content-Disposition"
         (js "attachment; filename=" ++ quote ++ sanitizedFilename ++ quote) ;;
       new_PDFDocument ;;
       doc_pipe ;;
       for_of req_files (fun file =>
         compressedBuffer ← await (compressImage (buffer file) compressionLevel);
         img ← doc_openImage compressedBuffer;
         doc_addPage (width img, height img) ;;
         doc_image img 0 0) ;;
       doc_end ;;
       if supabaseConnected then
         try_catch
           (_ ← await (supabase_insert
                  {| row_filename := sanitizedFilename;
                     row_file_count := N.of_nat (length req_files);
                     row_compression_level := compressionLevel;
                     row_user_id := or_anonymous (header_user_id req);
                     row_created_at := now |} insert_reply);
            mret tt)
           (fun dbError => mret tt)
       else mret tt)
    (fun err =>
       sent ← res_headersSent;
       if negb sent then
         res_status 500 ;;
         res_json (JObj [("error"%string, JStr (js "Conversion failed"));
                         ("message"%string, JStr (message err))])
       else mret tt).

(** The error handling middleware. *)
Definition error_middleware (error : jserror) : M unit :=
  if is_MulterError error && str_eqb (code error) (js "LIMIT_FILE_SIZE") then
    res_status 400 ;;
    res_json (JObj [("error"%string, JStr (js "File too large. Maximum size is 10MB."))])
  else if is_MulterError error && str_eqb (code error) (js "LIMIT_FILE_COUNT") then
    res_status 400 ;;
    res_json (JObj [("error"%string, JStr (js "Too many files. Maximum is 20 files."))])
  else
    res_status 500 ;; res_json (JObj [("error"%string, JStr (message error))]).

(** [app.post("/convert", upload.array("images"), handler)] followed by the
    error middleware. *)
Definition post_convert (supabaseConnected : bool) (insert_reply : store_reply)
           (now : jsstring) (req : Request) : M unit :=
  match upload_array 0 (parts req) with
  | inl error => error_middleware error
  | inr req_files => convert_handler supabaseConnected insert_reply now req req_files
  end.

(** The handler of [GET /conversions]. *)
Definition get_conversions (supabaseConnected : bool) (select_reply : store_reply) : M unit :=
  try_catch
    (if negb supabaseConnected then res_json (JArr [])
     else
       reply ← await (supabase_select select_reply);
       match reply with
       | Resolves data (Some error) => throw error
       | Resolves data None => res_json (or_empty_array data)
       | Rejects e => throw e
       end)
    (fun err =>
       res_status 500 ;;
       res_json (JObj [("error"%string, JStr (js "Failed to fetch conversions"))])).

(** ** Observations on worlds and responses *)

(** The bytes the adapter hands to the PDF writer for one upload. *)
Definition reencoded (buffer : Buffer) (quality : N) : Buffer :=
  match sharp_jpeg buffer quality true with
  | inr out => out
  | inl _ => buffer
  end.

Definition compressed_bytes (buffer : Buffer) (compressionLevel : jsval) : Buffer :=
  reencoded buffer (quality_of compressionLevel).

(** A file part the upload stage lets through: sent under the field
    [images], declared as an image, not too large for the size limit. *)
Definition valid_upload (file : File) : bool :=
  str_eqb (fieldname file) (js "images")
  && startsWith (mimetype file) (js "image/")
  && negb (too_large (N.of_nat (length (buffer file)))).

(** The world left by a request that is answered with a JSON body. *)
Definition answered (st : N) (v : json) : world :=
  {| res := send_json v (set_statusCode st fresh_response); doc := None; inserted := [] |}.

(** The world left by a request that is answered with [res.json(undefined)]:
    an empty body. *)
Definition answered_nothing (st : N) : world :=
  {| res := send_nothing (set_statusCode st fresh_response); doc := None; inserted := [] |}.

(** The replacement the sanitizer performs on one code unit. *)
Definition safe_unit (ch : N) : bool :=
  ((97 <=? ch) && (ch <=? 122)) || ((65 <=? ch) && (ch <=? 90))
  || ((48 <=? ch) && (ch <=? 57)) || (ch =? 95) || (ch =? 45).

Definition underscore_unless_safe (ch : N) : N :=
  if safe_unit ch then ch else 95.

(** The value of the [Content-Disposition] header for an attachment name. *)
Definition attachment (name : jsstring) : jsstring :=
  js "attachment; filename=" ++ quote ++ name ++ quote.

Definition has_error_field (v : json) : bool :=
  match v with
  | JObj fields => existsb (fun kv => String.eqb (fst kv) "error") fields
  | _ => false
  end.

(** The body is one JSON object with an [error] field. *)
Definition is_json_error (r : response) : bool :=
  match body r with
  | [Json v] => has_error_field v
  | _ => false
  end.

Definition pdf_ops (r : response) : list pdf_op :=
  flat_map (fun c => match c with PdfBytes op => [op] | Json _ => [] end) (body r).

Definition json_bodies (r : response) : list json :=
  flat_map (fun c => match c with Json v => [v] | PdfBytes _ => [] end) (body r).

(** [doc.end()] was reached: every file was processed. *)
Definition completed (w : world) : bool :=
  match doc w with
  | Some d => finalized d
  | None => false
  end.

(** The PDF writer can open what the adapter makes of the file. *)
Definition opens (compressionLevel : jsval) (file : File) : bool :=
  match openImage (compressed_bytes (buffer file) compressionLevel) with
  | inr _ => true
  | inl _ => false
  end.

(** The page of one image: sized to the image, the image at the origin. *)
Definition page_of (img : Image) : page :=
  {| page_size := (width img, height img); page_images := [(img, (0, 0))] |}.

Definition page_ops (img : Image) : list pdf_op :=
  [PdfPage (width img) (height img); PdfImage img 0 0].

(** The whole output of a document made of the given images. *)
Definition document_ops (imgs : list Image) : list pdf_op :=
  PdfHeader :: flat_map page_ops imgs ++ [PdfEnd].

(** The request fails before the PDF stream is opened. *)
Definition fails_before_streaming (req : Request) : bool :=
  match upload_array 0 (parts req) with
  | inl _ => true
  | inr req_files =>
      is_nil req_files
      || match body_filename req with JNonString => true | _ => false end
  end.

(** A reply that reports a failure of the store. *)
Definition store_fails (reply : store_reply) : bool :=
  match reply with
  | Rejects _ => true
  | Resolves _ (Some _) => true
  | Resolves _ None => false
  end.

(** The headers the handler sets before it opens the stream, for a file
    name that is a string. *)
Definition stream_headers (filename : jsstring) : gmap string jsstring :=
  <["Content-Disposition"%string := attachment (sanitize filename ++ js ".pdf")]>
    (<["Content-Type"%string := js "application/pdf"]> ∅).

(** The audit row of a conversion whose file name is a string. *)
Definition audit_row (now : jsstring) (req : Request) (req_files : list File)
           (filename : jsstring) : conversion_row :=
  {| row_filename := sanitize filename ++ js ".pdf";
     row_file_count := N.of_nat (length req_files);
     row_compression_level :=
       with_default (JString (js "normal")) (body_compressionLevel req);
     row_user_id := or_anonymous (header_user_id req);
     row_created_at := now |}.

(** A world in which the document is open and piped into a response that
    has not ended: the shape of the world throughout the page loop. *)
Definition streaming (st : N) (hd : gmap string jsstring) (hs : bool)
           (bd : list chunk) (pg : list page) (pend : list pdf_op)
           (ins : list conversion_row) : world :=
  {| res := {| statusCode := st; headers := hd; headersSent := hs; body := bd;
               ended := false |};
     doc := Some {| pages := pg; pending := pend; piped := true; finalized := false |};
     inserted := ins |}.

(** One turn of the page loop. *)
Definition page_step (compressionLevel : jsval) (file : File) : M unit :=
  compressedBuffer ← await (compressImage (buffer file) compressionLevel);
  img ← doc_openImage compressedBuffer;
  doc_addPage (width img, height img) ;;
  doc_image img 0 0.

(** The file name the handler works on when the field is absent or a
    string. *)
Definition requested_name (req : Request) : jsstring :=
  match with_default (JString (js "converted")) (body_filename req) with
  | JString s => s
  | _ => []
  end.

(** The headers of a response answered with [res.json] alone. *)
Definition json_headers : gmap string jsstring :=
  {["Content-Type"%string := js "application/json; charset=utf-8"]}.

(** A code unit that is a printable ASCII character. *)
Definition printable (ch : N) : bool := (32 <=? ch) && (ch <=? 126).

(** The [compressionLevel] field is absent or names one of the three
    tiers. *)
Definition names_a_tier (compressionLevel : jsval) : bool :=
  match compressionLevel with
  | JUndefined => true
  | JString s =>
      str_eqb s (js "normal") || str_eqb s (js "compressed") || str_eqb s (js "ultra")
  | JNonString => false
  end.

(** The Supabase settings are usable: both variables set and not empty,
    the URL not one of the two placeholders. *)
Definition configured (env : Env) : bool :=
  truthy (SUPABASE_URL env) && truthy (SUPABASE_ANON_KEY env)
  && negb (is_string (SUPABASE_URL env) "https://your-project-id.supabase.co")
  && negb (is_string (SUPABASE_URL env) "https://your-project.supabase.co").

Definition rejects (reply : store_reply) : bool :=
  match reply with
  | Rejects _ => true
  | Resolves _ _ => false
  end.

(** * Properties *)

(** ** Strings and the sanitizer *)

Lemma str_eqb_eq (a b : jsstring) : str_eqb a b = true <-> a = b.
Proof.
  revert b. induction a as [|x a IH]; intros [|y b]; simpl; split; try easy.
  - intros [Hx Hab]%andb_true_iff. apply N.eqb_eq in Hx. apply IH in Hab. congruence.
  - intros [= -> ->]. apply andb_true_iff. split; [apply N.eqb_refl | now apply IH].
Qed.

Lemma str_eqb_neq (a b : jsstring) : a <> b -> str_eqb a b = false.
Proof.
  intros Hne. destruct (str_eqb a b) eqn:E; [|reflexivity].
  apply str_eqb_eq in E. contradiction.
Qed.

Lemma canonical_ascii (ch : N) :
  ch < 128 -> Canonicalize upper_table true ch = ascii_upper ch.
Proof.
  intros Hlt. unfold Canonicalize, toUpperCase1. simpl.
  assert ((ch <? 128) = true) as -> by now apply N.ltb_lt.
  assert ((128 <=? ch) = false) as -> by now apply N.leb_gt.
  reflexivity.
Qed.

Lemma canonical_high (ch : N) :
  128 <= ch -> 128 <= Canonicalize upper_table true ch.
Proof.
  intros Hge. unfold Canonicalize, toUpperCase1. simpl.
  assert ((ch <? 128) = false) as -> by now apply N.ltb_ge.
  assert ((128 <=? ch) = true) as -> by now apply N.leb_le.
  destruct (upper_table ch) as [|cu [|? ?]]; try assumption.
  simpl. destruct (cu <? 128) eqn:E; [assumption|].
  now apply N.ltb_ge in E.
Qed.

Lemma ascii_units (ch : N) : ch < 128 -> In ch (map N.of_nat (seq 0 128)).
Proof.
  intros Hlt. apply in_map_iff. exists (N.to_nat ch). split; [lia|].
  apply in_seq. lia.
Qed.

Lemma class_matches_ascii (ch : N) :
  ch < 128 -> class_matches upper_table true unsafe_class ch = negb (safe_unit ch).
Proof.
  intros Hlt.
  assert (forallb (fun c => Bool.eqb (class_matches upper_table true unsafe_class c)
                                     (negb (safe_unit c)))
                  (map N.of_nat (seq 0 128)) = true) as Hall by (vm_compute; reflexivity).
  rewrite forallb_forall in Hall.
  apply Bool.eqb_prop. apply Hall. now apply ascii_units.
Qed.

Lemma class_matches_high (ch : N) :
  128 <= ch -> class_matches upper_table true unsafe_class ch = true.
Proof.
  intros Hge. unfold class_matches, class_contains. simpl negated.
  assert (existsb (fun a => Canonicalize upper_table true a =? Canonicalize upper_table true ch)
                  (class_members unsafe_class) = false) as ->; [|reflexivity].
  apply not_true_is_false. intros (a & Hin & Heq)%existsb_exists.
  apply N.eqb_eq in Heq.
  assert (a < 128) as Ha.
  { assert (forallb (fun c => c <? 128) (class_members unsafe_class) = true) as Hall
      by (vm_compute; reflexivity).
    rewrite forallb_forall in Hall. apply N.ltb_lt. now apply Hall. }
  pose proof (canonical_high ch Hge) as Hhigh.
  rewrite <- Heq, (canonical_ascii a Ha) in Hhigh.
  unfold ascii_upper in Hhigh.
  destruct ((97 <=? a) && (a <=? 122)); lia.
Qed.

Lemma safe_unit_ascii (ch : N) : safe_unit ch = true -> ch < 128.
Proof.
  unfold safe_unit. intros H.
  repeat (apply orb_true_iff in H as [H|H]);
    repeat (apply andb_true_iff in H as [? H]);
    repeat match goal with
           | X : (_ <=? _) = true |- _ => apply N.leb_le in X
           | X : (_ =? _) = true |- _ => apply N.eqb_eq in X
           end; lia.
Qed.

Lemma class_matches_unsafe (ch : N) :
  class_matches upper_table true unsafe_class ch = negb (safe_unit ch).
Proof.
  destruct (N.lt_ge_cases ch 128) as [Hlt|Hge].
  - now apply class_matches_ascii.
  - rewrite (class_matches_high ch Hge).
    destruct (safe_unit ch) eqn:E; [|reflexivity].
    apply safe_unit_ascii in E. lia.
Qed.

Lemma sanitize_map (s : jsstring) : sanitize s = map underscore_unless_safe s.
Proof.
  unfold sanitize, replace_global.
  induction s as [|ch s IH]; [reflexivity|].
  simpl. rewrite IH, class_matches_unsafe. unfold underscore_unless_safe.
  destruct (safe_unit ch); reflexivity.
Qed.

Lemma underscore_unless_safe_safe (ch : N) : safe_unit (underscore_unless_safe ch) = true.
Proof.
  unfold underscore_unless_safe. destruct (safe_unit ch) eqn:E; [assumption|reflexivity].
Qed.

(** ** The stream and the page loop *)

Lemma deliver_idempotent (w : world) : deliver (deliver w) = deliver w.
Proof.
  unfold deliver. destruct w as [r [d|] ins]; simpl; [|reflexivity].
  destruct d as [pg pend [|] fin]; simpl; [|reflexivity].
  destruct (ended r) eqn:E; simpl; [rewrite E; reflexivity|].
  destruct fin; simpl; [reflexivity|].
  rewrite !orb_false_r, app_nil_r. reflexivity.
Qed.

Lemma deliver_streaming st hd hs bd pg pend ins :
  deliver (streaming st hd hs bd pg pend ins)
  = streaming st hd (hs || negb (is_nil pend)) (bd ++ map PdfBytes pend) pg [] ins.
Proof. unfold deliver, streaming. simpl. rewrite orb_false_r. reflexivity. Qed.

Lemma compressImage_run (b : Buffer) (level : jsval) (w : world) :
  compressImage b level w = (Returns (compressed_bytes b level), deliver w).
Proof.
  unfold compressImage, try_catch, await, sharp_toBuffer, compressed_bytes, reencoded.
  destruct (sharp_jpeg b (quality_of level) true); reflexivity.
Qed.

Lemma on_last_page_snoc (f : page -> page) (pg : list page) (p : page) :
  on_last_page f (pg ++ [p]) = pg ++ [f p].
Proof.
  induction pg as [|q pg IH]; [reflexivity|].
  simpl. rewrite IH. destruct (pg ++ [p]) eqn:E; [|reflexivity].
  now destruct pg.
Qed.

Lemma flush_page_snoc (pg : list page) (img : Image) :
  flush_page (pg ++ [page_of img]) = page_ops img.
Proof. unfold flush_page. rewrite last_snoc. reflexivity. Qed.

Lemma is_nil_snoc {A} (l : list A) (x : A) : is_nil (l ++ [x]) = false.
Proof. now destruct l. Qed.

Lemma page_step_ok level file img st hd hs bd pg pend ins :
  openImage (compressed_bytes (buffer file) level) = inr img ->
  page_step level file (streaming st hd hs bd pg pend ins)
  = (Returns tt,
     streaming st hd (hs || negb (is_nil pend)) (bd ++ map PdfBytes pend)
               (pg ++ [page_of img]) (flush_page pg) ins).
Proof.
  intros Hopen. unfold page_step, await, mbind, M_bind.
  rewrite compressImage_run, deliver_idempotent, deliver_streaming.
  unfold doc_openImage, with_doc. simpl. rewrite Hopen. simpl.
  unfold doc_image, with_doc. simpl.
  rewrite is_nil_snoc, on_last_page_snoc. reflexivity.
Qed.

Lemma page_step_fail level file e st hd hs bd pg pend ins :
  openImage (compressed_bytes (buffer file) level) = inl e ->
  page_step level file (streaming st hd hs bd pg pend ins)
  = (Throws e,
     streaming st hd (hs || negb (is_nil pend)) (bd ++ map PdfBytes pend) pg [] ins).
Proof.
  intros Hopen. unfold page_step, await, mbind, M_bind.
  rewrite compressImage_run, deliver_idempotent, deliver_streaming.
  unfold doc_openImage, with_doc. simpl. rewrite Hopen. reflexivity.
Qed.

Lemma page_loop_ok level fs imgs : forall st hd hs bd pg pend ins,
  Forall2 (fun file img => openImage (compressed_bytes (buffer file) level) = inr img) fs imgs ->
  exists hs' bd' pend',
    for_of fs (page_step level) (streaming st hd hs bd pg pend ins)
    = (Returns tt, streaming st hd hs' bd' (pg ++ map page_of imgs) pend' ins)
    /\ bd' ++ map PdfBytes (pend' ++ flush_page (pg ++ map page_of imgs))
       = bd ++ map PdfBytes (pend ++ flush_page pg ++ flat_map page_ops imgs).
Proof.
  intros st hd hs bd pg pend ins Hall. revert st hd hs bd pg pend ins.
  induction Hall as [|file img fs imgs Hopen Hall IH]; intros st hd hs bd pg pend ins.
  - exists hs, bd, pend. simpl. rewrite !app_nil_r. split; reflexivity.
  - simpl for_of. unfold mbind, M_bind. rewrite (page_step_ok _ _ _ _ _ _ _ _ _ _ Hopen).
    destruct (IH st hd (hs || negb (is_nil pend)) (bd ++ map PdfBytes pend)
                 (pg ++ [page_of img]) (flush_page pg) ins) as (hs' & bd' & pend' & Hrun & Hout).
    exists hs', bd', pend'. split.
    + rewrite Hrun. simpl. rewrite <- app_assoc. reflexivity.
    + simpl map. rewrite <- app_assoc in Hout. simpl app in Hout. rewrite Hout.
      rewrite flush_page_snoc. simpl flat_map.
      rewrite !map_app, <- !app_assoc. reflexivity.
Qed.

Lemma page_loop_frame level fs : forall st hd hs bd pg pend ins,
  hs || negb (is_nil pend) = true ->
  exists r hs' bd' pg' pend' ops,
    for_of fs (page_step level) (streaming st hd hs bd pg pend ins)
    = (r, streaming st hd hs' bd' pg' pend' ins)
    /\ hs' || negb (is_nil pend') = true
    /\ (forall e, r = Throws e -> hs' = true /\ pend' = [])
    /\ bd' ++ map PdfBytes pend' = bd ++ map PdfBytes (pend ++ ops).
Proof.
  induction fs as [|file fs IH]; intros st hd hs bd pg pend ins Hsent.
  - exists (Returns tt), hs, bd, pg, pend, []. simpl. rewrite app_nil_r.
    split; [reflexivity|]. split; [assumption|]. split; [discriminate|reflexivity].
  - simpl for_of. unfold mbind, M_bind.
    destruct (openImage (compressed_bytes (buffer file) level)) as [e|img] eqn:Hopen.
    + rewrite (page_step_fail _ _ _ _ _ _ _ _ _ _ Hopen).
      exists (Throws e), (hs || negb (is_nil pend)), (bd ++ map PdfBytes pend), pg, [], [].
      rewrite Hsent. simpl. rewrite !app_nil_r.
      split; [reflexivity|]. split; [reflexivity|]. split; [|reflexivity].
      intros ? _. split; reflexivity.
    + rewrite (page_step_ok _ _ _ _ _ _ _ _ _ _ Hopen).
      destruct (IH st hd (hs || negb (is_nil pend)) (bd ++ map PdfBytes pend)
                   (pg ++ [page_of img]) (flush_page pg) ins)
        as (r & hs' & bd' & pg' & pend' & ops & Hrun & Hsent' & Hthrow & Hout).
      { rewrite Hsent. reflexivity. }
      exists r, hs', bd', pg', pend', (flush_page pg ++ ops).
      rewrite Hrun. split; [reflexivity|]. split; [assumption|]. split; [assumption|].
      rewrite Hout, !map_app, <- !app_assoc. reflexivity.
Qed.

(** ** Running the handlers *)

Lemma convert_served connected reply now req req_files s :
  is_nil req_files = false ->
  with_default (JString (js "converted")) (body_filename req) = JString s ->
  let level := with_default (JString (js "normal")) (body_compressionLevel req) in
  let hd := stream_headers s in
  exists r hs bd pg pend ops,
    for_of req_files (page_step level) (streaming 200 hd false [] [] [PdfHeader] [])
    = (r, streaming 200 hd hs bd pg pend [])
    /\ bd ++ map PdfBytes pend = map PdfBytes (PdfHeader :: ops)
    /\ serve (convert_handler connected reply now req req_files)
       = match r with
         | Returns _ =>
             {| res := {| statusCode := 200; headers := hd; headersSent := true;
                          body := map PdfBytes
                                      (PdfHeader :: ops ++ flush_page pg ++ [PdfEnd]);
                          ended := true |};
                doc := Some {| pages := pg; pending := []; piped := true;
                               finalized := true |};
                inserted := if connected
                            then [audit_row now req req_files s]
                            else [] |}
         | Throws _ => streaming 200 hd true (map PdfBytes (PdfHeader :: ops)) pg [] []
         end.
Proof.
  intros Hfiles Hname level hd.
  destruct (page_loop_frame level req_files 200 hd false [] [] [PdfHeader] [] eq_refl)
    as (r & hs & bd & pg & pend & ops & Hrun & Hsent & Hthrow & Hout).
  exists r, hs, bd, pg, pend, ops. split; [exact Hrun|]. split; [exact Hout|].
  unfold serve, convert_handler, try_catch. rewrite Hfiles, Hname.
  fold level. unfold mbind, M_bind.
  cbn -[js for_of deliver sanitize].
  change (for_of req_files _ _)
    with (for_of req_files (page_step level) (streaming 200 hd false [] [] [PdfHeader] [])).
  rewrite Hrun. simpl in Hout.
  destruct r as [[]|e].
  - unfold doc_end, with_doc. cbn -[js deliver sanitize].
    assert (bd ++ map PdfBytes (pend ++ flush_page pg ++ [PdfEnd])
            = PdfBytes PdfHeader :: map PdfBytes (ops ++ flush_page pg ++ [PdfEnd])) as Hbody.
    { rewrite !map_app, app_assoc, Hout. reflexivity. }
    destruct connected; [destruct reply|];
      cbn -[js sanitize]; rewrite ?orb_true_r, ?Hbody; reflexivity.
  - destruct (Hthrow e eq_refl) as [-> ->].
    cbn -[js sanitize]. rewrite app_nil_r in Hout |- *. rewrite Hout. reflexivity.
Qed.

Lemma streaming_inj st hd hs bd pg pend ins st' hd' hs' bd' pg' pend' ins' :
  streaming st hd hs bd pg pend ins = streaming st' hd' hs' bd' pg' pend' ins' ->
  hs = hs' /\ bd = bd' /\ pg = pg' /\ pend = pend'.
Proof. unfold streaming. intros [= ? ? ? ? ? ? ?]. subst. auto. Qed.

Lemma PdfBytes_map_inj (a b : list pdf_op) : map PdfBytes a = map PdfBytes b -> a = b.
Proof.
  revert b. induction a as [|x a IH]; intros [|y b]; simpl; try easy.
  intros [= -> Hab]. f_equal. now apply IH.
Qed.

Lemma convert_served_ok connected reply now req req_files s imgs :
  is_nil req_files = false ->
  with_default (JString (js "converted")) (body_filename req) = JString s ->
  Forall2 (fun file img =>
             openImage (compressed_bytes (buffer file)
                          (with_default (JString (js "normal")) (body_compressionLevel req)))
             = inr img) req_files imgs ->
  serve (convert_handler connected reply now req req_files)
  = {| res := {| statusCode := 200; headers := stream_headers s; headersSent := true;
                 body := map PdfBytes (document_ops imgs); ended := true |};
       doc := Some {| pages := map page_of imgs; pending := []; piped := true;
                      finalized := true |};
       inserted := if connected then [audit_row now req req_files s] else [] |}.
Proof.
  intros Hfiles Hname Hall.
  destruct (convert_served connected reply now req req_files s Hfiles Hname)
    as (r & hs & bd & pg & pend & ops & Hrun & Hout & Hserve).
  destruct (page_loop_ok _ _ _ 200 (stream_headers s) false [] [] [PdfHeader] [] Hall)
    as (hs' & bd' & pend' & Hrun' & Hout').
  rewrite Hrun in Hrun'.
  pose proof (f_equal fst Hrun') as Hr. pose proof (f_equal snd Hrun') as Hw.
  simpl in Hr, Hw. subst r.
  apply streaming_inj in Hw as (-> & -> & -> & ->).
  rewrite map_app, app_assoc, Hout in Hout'. simpl in Hout'. injection Hout' as Hops.
  rewrite <- map_app in Hops. apply PdfBytes_map_inj in Hops.
  rewrite Hserve. unfold document_ops. rewrite <- Hops, <- app_assoc. reflexivity.
Qed.

Lemma convert_served_no_files connected reply now req :
  serve (convert_handler connected reply now req [])
  = answered 400 (JObj [("error"%string, JStr (js "No images provided"))]).
Proof. reflexivity. Qed.

Lemma convert_served_bad_filename connected reply now req req_files :
  is_nil req_files = false ->
  body_filename req = JNonString ->
  serve (convert_handler connected reply now req req_files)
  = answered 500 (JObj [("error"%string, JStr (js "Conversion failed"));
                        ("message"%string, JStr (js "filename.replace is not a function"))]).
Proof.
  intros Hfiles Hname. unfold serve, convert_handler, try_catch.
  rewrite Hfiles, Hname. reflexivity.
Qed.

Lemma error_middleware_served (error : jserror) :
  exists st v,
    serve (error_middleware error) = answered st v
    /\ has_error_field v = true /\ 400 <= st.
Proof.
  unfold error_middleware.
  destruct (is_MulterError error && str_eqb (code error) (js "LIMIT_FILE_SIZE"));
    [|destruct (is_MulterError error && str_eqb (code error) (js "LIMIT_FILE_COUNT"))];
    eexists _, _; (split; [reflexivity|]); split; (reflexivity || lia).
Qed.

Lemma answered_is_json_error st v :
  is_json_error (res (answered st v)) = has_error_field v.
Proof. reflexivity. Qed.

Lemma filename_cases (v : jsval) :
  (exists s, with_default (JString (js "converted")) v = JString s) \/ v = JNonString.
Proof. destruct v; [left|left|right]; eauto. Qed.

(** ** The upload stage *)

Lemma upload_array_accepts (parts : list File) : forall seen : nat,
  Forall (fun file => valid_upload file = true) parts ->
  (seen + length parts <= limits.files)%nat ->
  upload_array seen parts = inr parts.
Proof.
  induction parts as [|file rest IH]; intros seen Hvalid Hcount; [reflexivity|].
  inversion Hvalid as [|? ? Hfile Hrest]; subst. simpl in Hcount.
  unfold valid_upload in Hfile.
  apply andb_true_iff in Hfile as [[Hfield Htype]%andb_true_iff Hsize].
  apply negb_true_iff in Hsize.
  cbn [upload_array]. unfold fileFilter.
  assert (Nat.leb limits.files seen = false) as -> by (apply Nat.leb_gt; lia).
  rewrite Hfield, Htype. cbn [negb].
  rewrite Hsize.
  rewrite IH; [reflexivity|assumption|lia].
Qed.

Lemma upload_array_refuses_type (pre : list File) (file : File) (post : list File) :
  forall seen : nat,
  Forall (fun f => valid_upload f = true) pre ->
  (seen + length pre < limits.files)%nat ->
  str_eqb (fieldname file) (js "images") = true ->
  startsWith (mimetype file) (js "image/") = false ->
  upload_array seen (pre ++ file :: post) = inl (Error "Only image files are allowed").
Proof.
  induction pre as [|f pre IH]; intros seen Hvalid Hcount Hfield Htype.
  - simpl in Hcount. cbn [app upload_array]. unfold fileFilter.
    assert (Nat.leb limits.files seen = false) as -> by (apply Nat.leb_gt; lia).
    rewrite Hfield, Htype. reflexivity.
  - inversion Hvalid as [|? ? Hf Hrest]; subst. simpl in Hcount.
    unfold valid_upload in Hf.
    apply andb_true_iff in Hf as [[Hffield Hftype]%andb_true_iff Hfsize].
    apply negb_true_iff in Hfsize.
    cbn [app upload_array]. unfold fileFilter.
    assert (Nat.leb limits.files seen = false) as -> by (apply Nat.leb_gt; lia).
    rewrite Hffield, Hftype. cbn [negb].
    rewrite Hfsize.
    rewrite IH; [reflexivity|assumption|lia|assumption|assumption].
Qed.

Lemma post_convert_accepted connected reply now req req_files :
  upload_array 0 (parts req) = inr req_files ->
  post_convert connected reply now req = convert_handler connected reply now req req_files.
Proof. intros H. unfold post_convert. rewrite H. reflexivity. Qed.

Lemma is_nil_false {A} (l : list A) : l <> [] -> is_nil l = false.
Proof. now destruct l. Qed.

(** The [Content-Disposition] header of every response to an accepted
    upload with at least one file and a string file name. *)
Lemma served_disposition connected reply now req req_files s :
  upload_array 0 (parts req) = inr req_files ->
  req_files <> [] ->
  with_default (JString (js "converted")) (body_filename req) = JString s ->
  headers (res (serve (post_convert connected reply now req))) !! "Content-Disposition"%string
  = Some (attachment (sanitize s ++ js ".pdf")).
Proof.
  intros Hup Hfiles Hname. rewrite (post_convert_accepted _ _ _ _ _ Hup).
  destruct (convert_served connected reply now req req_files s
              (is_nil_false _ Hfiles) Hname)
    as (r & hs & bd & pg & pend & ops & _ & _ & ->).
  destruct r; simpl; unfold stream_headers; apply lookup_insert_eq.
Qed.

Lemma sanitize_length (s : jsstring) : length (sanitize s) = length s.
Proof. rewrite sanitize_map. apply length_map. Qed.

Lemma sanitize_safe (s : jsstring) : Forall (fun ch => safe_unit ch = true) (sanitize s).
Proof.
  rewrite sanitize_map. induction s as [|ch s IH]; simpl; constructor.
  - apply underscore_unless_safe_safe.
  - exact IH.
Qed.

Lemma quality_of_other (sel : jsval) :
  sel <> JString (js "compressed") -> sel <> JString (js "ultra") -> quality_of sel = 90.
Proof.
  intros Hc Hu. unfold quality_of.
  destruct sel as [|s|]; simpl; try reflexivity.
  rewrite (str_eqb_neq s (js "ultra")) by congruence.
  rewrite (str_eqb_neq s (js "compressed")) by congruence.
  destruct (str_eqb s (js "normal")); reflexivity.
Qed.

Lemma sanitize_lookup (s : jsstring) : forall (i : nat) (ch : N),
  s !! i = Some ch -> sanitize s !! i = Some (if safe_unit ch then ch else 95).
Proof.
  rewrite sanitize_map.
  induction s as [|c s IH]; intros [|i] ch; simpl; try discriminate.
  - intros [= ->]. reflexivity.
  - apply IH.
Qed.

Lemma underscore_unless_safe_idempotent (ch : N) :
  underscore_unless_safe (underscore_unless_safe ch) = underscore_unless_safe ch.
Proof.
  unfold underscore_unless_safe at 1. now rewrite underscore_unless_safe_safe.
Qed.

Lemma sanitize_has_underscore (s : jsstring) :
  existsb (fun ch => negb (safe_unit ch)) s = true -> In 95 (sanitize s).
Proof.
  rewrite sanitize_map. intros (ch & Hin & Hbad)%existsb_exists.
  apply in_map_iff. exists ch. split; [|exact Hin].
  unfold underscore_unless_safe. now destruct (safe_unit ch).
Qed.

(** ** The claims about the adapter and the sanitizer *)

(** C1. The compression adapter selects a fixed quality for every tier
    selector: "normal" selects 90, "compressed" selects 60, "ultra" selects
    30, and a selector that is none of these, the omitted one included,
    selects 90 as "normal" does. The encoder is asked for that quality and
    the adapter returns what it produces (its input when it fails). *)
Theorem quality_by_tier (buffer : Buffer) (sel : jsval) (w : world) :
  quality_of (JString (js "normal")) = 90
  /\ quality_of (JString (js "compressed")) = 60
  /\ quality_of (JString (js "ultra")) = 30
  /\ quality_of JUndefined = 90
  /\ quality_of (with_default (JString (js "normal")) JUndefined) = 90
  /\ (sel <> JString (js "compressed") -> sel <> JString (js "ultra") ->
      quality_of sel = quality_of (JString (js "normal")))
  /\ compressImage buffer sel w = (Returns (reencoded buffer (quality_of sel)), deliver w).
Proof.
  repeat (split; [reflexivity|]). split.
  - intros Hc Hu. now rewrite (quality_of_other sel Hc Hu).
  - apply compressImage_run.
Qed.

(** C9. The file name sanitizer keeps its output inside the safe alphabet
    and is idempotent: every code unit of [sanitize s] lies in
    [[A-Za-z0-9_-]], [sanitize s] is as long as [s], and sanitizing twice
    gives what sanitizing once gives. *)
Theorem sanitize_idempotent (s : jsstring) :
  Forall (fun ch => safe_unit ch = true) (sanitize s)
  /\ length (sanitize s) = length s
  /\ sanitize (sanitize s) = sanitize s.
Proof.
  split; [apply sanitize_safe|]. split; [apply sanitize_length|].
  rewrite !sanitize_map, map_map.
  apply map_ext. intros ch. apply underscore_unless_safe_idempotent.
Qed.

(** C3. For every requested output file name, each code unit outside
    [[A-Za-z0-9_-]] is replaced with [_] (code unit 95) and the others are
    kept, before the name is placed in the attachment file name of the
    [Content-Disposition] header: the sanitized name is as long as the
    input and is followed by ".pdf". *)
Theorem disallowed_units_become_underscores connected reply now req req_files name :
  upload_array 0 (parts req) = inr req_files ->
  req_files <> [] ->
  body_filename req = JString name ->
  headers (res (serve (post_convert connected reply now req))) !! "Content-Disposition"%string
  = Some (attachment (sanitize name ++ js ".pdf"))
  /\ length (sanitize name) = length name
  /\ forall (i : nat) (ch : N),
       name !! i = Some ch ->
       sanitize name !! i = Some (if safe_unit ch then ch else 95).
Proof.
  intros Hup Hfiles Hname. split; [|split].
  - apply (served_disposition _ _ _ _ req_files); [assumption|assumption|].
    rewrite Hname. reflexivity.
  - apply sanitize_length.
  - apply sanitize_lookup.
Qed.

(** C4, as the code has it. For every requested output file name that
    contains a code unit outside [[A-Za-z0-9_-]], the pipeline replaces
    each such unit with [_] instead of removing it: the name used in the
    [Content-Disposition] header holds only units of the safe alphabet,
    holds an underscore, and is exactly as long as the input, never
    shorter. *)
Theorem disallowed_units_replaced_not_removed connected reply now req req_files name :
  upload_array 0 (parts req) = inr req_files ->
  req_files <> [] ->
  body_filename req = JString name ->
  existsb (fun ch => negb (safe_unit ch)) name = true ->
  headers (res (serve (post_convert connected reply now req))) !! "Content-Disposition"%string
  = Some (attachment (sanitize name ++ js ".pdf"))
  /\ Forall (fun ch => safe_unit ch = true) (sanitize name)
  /\ In 95 (sanitize name)
  /\ length (sanitize name) = length name.
Proof.
  intros Hup Hfiles Hname Hbad. split; [|split; [|split]].
  - apply (served_disposition _ _ _ _ req_files); [assumption|assumption|].
    rewrite Hname. reflexivity.
  - apply sanitize_safe.
  - now apply sanitize_has_underscore.
  - apply sanitize_length.
Qed.

(** ** The claims about the handlers *)

Lemma pdf_ops_of_stream st hd hs e (ops : list pdf_op) :
  pdf_ops {| statusCode := st; headers := hd; headersSent := hs;
             body := map PdfBytes ops; ended := e |} = ops.
Proof.
  unfold pdf_ops. simpl. induction ops as [|op ops IH]; simpl; [reflexivity|].
  now rewrite IH.
Qed.

Lemma json_bodies_of_stream st hd hs e (ops : list pdf_op) :
  json_bodies {| statusCode := st; headers := hd; headersSent := hs;
                 body := map PdfBytes ops; ended := e |} = [].
Proof.
  unfold json_bodies. simpl. induction ops as [|op ops IH]; simpl; [reflexivity|].
  exact IH.
Qed.

Lemma page_loop_result level fs : forall st hd hs bd pg pend ins,
  match fst (for_of fs (page_step level) (streaming st hd hs bd pg pend ins)) with
  | Returns _ => forallb (opens level) fs = true
  | Throws _ => forallb (opens level) fs = false
  end.
Proof.
  induction fs as [|file fs IH]; intros st hd hs bd pg pend ins; [reflexivity|].
  simpl for_of. unfold mbind, M_bind. simpl forallb. unfold opens at 1 3.
  destruct (openImage (compressed_bytes (buffer file) level)) as [e|img] eqn:Hopen.
  - rewrite (page_step_fail _ _ _ _ _ _ _ _ _ _ Hopen). reflexivity.
  - rewrite (page_step_ok _ _ _ _ _ _ _ _ _ _ Hopen). simpl. apply IH.
Qed.

(** C2, as the code has it. A request to [POST /convert] that fails
    before the PDF stream is opened (the upload is refused, no file is
    supplied, or the file name field is not a string) is answered with a
    JSON body that has an [error] field, a status of 400 or more, and no
    PDF bytes. Otherwise the stream is opened before the first file is
    processed: the response has status 200, starts with the PDF header,
    never carries a JSON body, and is ended exactly when every file was
    processed; it is complete exactly when the writer could open the bytes
    of every file. *)
Theorem failure_reporting connected reply now (req : Request) :
  let w := serve (post_convert connected reply now req) in
  match doc w with
  | None =>
      fails_before_streaming req = true
      /\ is_json_error (res w) = true
      /\ pdf_ops (res w) = []
      /\ 400 <= statusCode (res w)
      /\ ended (res w) = true
  | Some d =>
      fails_before_streaming req = false
      /\ json_bodies (res w) = []
      /\ head (pdf_ops (res w)) = Some PdfHeader
      /\ statusCode (res w) = 200
      /\ ended (res w) = finalized d
      /\ finalized d
         = forallb (opens (with_default (JString (js "normal")) (body_compressionLevel req)))
                   (match upload_array 0 (parts req) with
                    | inr req_files => req_files
                    | inl _ => []
                    end)
  end.
Proof.
  intros w. subst w. unfold post_convert, fails_before_streaming.
  destruct (upload_array 0 (parts req)) as [error|req_files].
  - destruct (error_middleware_served error) as (st & v & -> & Hv & Hst).
    cbn [doc answered]. rewrite answered_is_json_error, Hv.
    repeat split; try reflexivity. exact Hst.
  - destruct req_files as [|file rest].
    + rewrite convert_served_no_files. simpl. repeat split; reflexivity || lia.
    + destruct (filename_cases (body_filename req)) as [[s Hname]|Hname].
      * destruct (convert_served connected reply now req (file :: rest) s eq_refl Hname)
          as (r & hs & bd & pg & pend & ops & Hrun & _ & ->).
        pose proof (page_loop_result
                      (with_default (JString (js "normal")) (body_compressionLevel req))
                      (file :: rest) 200 (stream_headers s) false [] [] [PdfHeader] [])
          as Hres.
        rewrite Hrun in Hres. simpl fst in Hres.
        assert (body_filename req <> JNonString) as Hstr
          by (intros E; rewrite E in Hname; discriminate).
        destruct r as [[]|e]; cbn [doc res streaming statusCode ended finalized is_nil orb];
          rewrite pdf_ops_of_stream, json_bodies_of_stream, Hres;
          destruct (body_filename req); try contradiction; repeat split; reflexivity.
      * rewrite (convert_served_bad_filename _ _ _ _ (file :: rest) eq_refl Hname), Hname.
        simpl. repeat split; reflexivity || lia.
Qed.

(** C5 on the code. A request whose first refused part is a file that is
    not declared as an image is answered by the error middleware with
    status 500, not 400, and the JSON body
    [{ error: "Only image files are allowed" }]: the filter's error is no
    [MulterError], so it takes the middleware's last branch. *)
Theorem non_image_upload_answer connected reply now req pre file post :
  parts req = pre ++ file :: post ->
  Forall (fun f => valid_upload f = true) pre ->
  (length pre < limits.files)%nat ->
  fieldname file = js "images" ->
  startsWith (mimetype file) (js "image/") = false ->
  serve (post_convert connected reply now req)
  = answered 500 (JObj [("error"%string, JStr (js "Only image files are allowed"))]).
Proof.
  intros Hparts Hpre Hcount Hfield Htype. unfold post_convert.
  rewrite Hparts, (upload_array_refuses_type pre file post 0 Hpre); try assumption.
  - reflexivity.
  - rewrite Hfield. reflexivity.
Qed.

Lemma convert_response_independent connected reply connected' reply' now req req_files :
  res (serve (convert_handler connected reply now req req_files))
  = res (serve (convert_handler connected' reply' now req req_files))
  /\ doc (serve (convert_handler connected reply now req req_files))
     = doc (serve (convert_handler connected' reply' now req req_files)).
Proof.
  destruct req_files as [|file rest].
  - rewrite !convert_served_no_files. split; reflexivity.
  - destruct (filename_cases (body_filename req)) as [[s Hname]|Hname].
    + destruct (convert_served connected reply now req (file :: rest) s eq_refl Hname)
        as (r & hs & bd & pg & pend & ops & Hrun & Hout & ->).
      destruct (convert_served connected' reply' now req (file :: rest) s eq_refl Hname)
        as (r' & hs' & bd' & pg' & pend' & ops' & Hrun' & Hout' & ->).
      rewrite Hrun in Hrun'.
      pose proof (f_equal fst Hrun') as Hr. pose proof (f_equal snd Hrun') as Hw.
      simpl in Hr, Hw. subst r'.
      apply streaming_inj in Hw as (-> & -> & -> & ->).
      rewrite Hout in Hout'. simpl in Hout'. injection Hout' as Hops.
      apply PdfBytes_map_inj in Hops as ->.
      destruct r; split; reflexivity.
    + rewrite !(convert_served_bad_filename _ _ _ _ (file :: rest) eq_refl Hname).
      split; reflexivity.
Qed.

(** C7, as the code has it. Let the audit store fail (the call rejects or
    resolves with an error). When the connectivity flag is not set,
    [GET /conversions] answers 200 with the empty JSON array; when the flag
    is set, the failed query is answered with status 500 and the body
    [{ error: "Failed to fetch conversions" }]. For [POST /convert] the
    response and the document are the same whatever the flag is and
    whatever the store replies: the store never changes the outcome of a
    conversion. *)
Theorem store_failure_handling (failure : store_reply) connected connected' reply' now req :
  store_fails failure = true ->
  serve (get_conversions false failure) = answered 200 (JArr [])
  /\ serve (get_conversions true failure)
     = answered 500 (JObj [("error"%string, JStr (js "Failed to fetch conversions"))])
  /\ res (serve (post_convert connected failure now req))
     = res (serve (post_convert connected' reply' now req))
  /\ doc (serve (post_convert connected failure now req))
     = doc (serve (post_convert connected' reply' now req)).
Proof.
  intros Hfail. split; [reflexivity|]. split.
  - destruct failure as [e|data [error|]]; try discriminate; reflexivity.
  - unfold post_convert. destruct (upload_array 0 (parts req)) as [error|req_files].
    + split; reflexivity.
    + apply convert_response_independent.
Qed.

Lemma post_convert_served_ok connected reply now req s imgs :
  Forall (fun file => valid_upload file = true) (parts req) ->
  (1 <= length (parts req) <= limits.files)%nat ->
  with_default (JString (js "converted")) (body_filename req) = JString s ->
  Forall2 (fun file img =>
             openImage (compressed_bytes (buffer file)
                          (with_default (JString (js "normal")) (body_compressionLevel req)))
             = inr img) (parts req) imgs ->
  serve (post_convert connected reply now req)
  = {| res := {| statusCode := 200; headers := stream_headers s; headersSent := true;
                 body := map PdfBytes (document_ops imgs); ended := true |};
       doc := Some {| pages := map page_of imgs; pending := []; piped := true;
                      finalized := true |};
       inserted := if connected then [audit_row now req (parts req) s] else [] |}.
Proof.
  intros Hvalid [Hone Hmax] Hname Hall.
  rewrite (post_convert_accepted _ _ _ _ (parts req)).
  - apply convert_served_ok; try assumption.
    destruct (parts req); [simpl in Hone; lia|reflexivity].
  - apply upload_array_accepts; [assumption|]. simpl. exact Hmax.
Qed.

Lemma string_filename (v : jsval) :
  v <> JNonString -> exists s, with_default (JString (js "converted")) v = JString s.
Proof. destruct v; intros H; [eauto|eauto|contradiction]. Qed.

(** C8, as the code has it. For every valid request to [POST /convert]
    carrying N images, 1 <= N <= 20 (every part sent under [images],
    declared as an image and not too large), whose [filename] field is
    absent or a string and whose files are all, once the adapter has
    treated them, bytes the PDF writer can open, the PDF has exactly N
    pages, one per input file in the order of submission; each page has
    the pixel dimensions of its (possibly re-encoded) image, which is
    placed at the origin of the page; the response is the complete
    document under status 200. *)
Theorem pages_match_images connected reply now req imgs :
  Forall (fun file => valid_upload file = true) (parts req) ->
  (1 <= length (parts req) <= limits.files)%nat ->
  body_filename req <> JNonString ->
  Forall2 (fun file img =>
             openImage (compressed_bytes (buffer file)
                          (with_default (JString (js "normal")) (body_compressionLevel req)))
             = inr img) (parts req) imgs ->
  let w := serve (post_convert connected reply now req) in
  exists d,
    doc w = Some d
    /\ length (pages d) = length (parts req)
    /\ (forall (i : nat) (file : File),
          parts req !! i = Some file ->
          exists img,
            openImage (compressed_bytes (buffer file)
                         (with_default (JString (js "normal")) (body_compressionLevel req)))
            = inr img
            /\ pages d !! i
               = Some {| page_size := (width img, height img);
                         page_images := [(img, (0, 0))] |})
    /\ statusCode (res w) = 200
    /\ ended (res w) = true
    /\ body (res w) = map PdfBytes (document_ops imgs).
Proof.
  intros Hvalid Hcount Hstr Hall w. subst w.
  destruct (string_filename _ Hstr) as [s Hname].
  rewrite (post_convert_served_ok connected reply now req s imgs Hvalid Hcount Hname Hall).
  eexists. split; [reflexivity|]. cbn [pages res statusCode ended body].
  split; [|split; [|repeat split]].
  - rewrite length_map. symmetry. eapply Forall2_length, Hall.
  - intros i file Hfile.
    destruct (Forall2_lookup_l _ _ _ _ _ Hall Hfile) as (img & Himg & Hopen).
    exists img. split; [exact Hopen|].
    change (map page_of imgs) with (page_of <$> imgs).
    rewrite list_lookup_fmap, Himg. reflexivity.
Qed.



(** * Further properties of the service *)

(** ** The upload stage *)

Lemma upload_array_inr (parts : list File) : forall (seen : nat) (accepted : list File),
  upload_array seen parts = inr accepted ->
  accepted = parts
  /\ forallb valid_upload parts = true
  /\ (parts = [] \/ (seen + length parts <= limits.files)%nat).
Proof.
  induction parts as [|file rest IH]; intros seen accepted Hup.
  - injection Hup as <-. auto.
  - cbn [upload_array] in Hup. unfold fileFilter in Hup.
    destruct (Nat.leb limits.files seen) eqn:Hseen; [discriminate|].
    apply Nat.leb_gt in Hseen.
    destruct (str_eqb (fieldname file) (js "images")) eqn:Hfield; [|discriminate].
    destruct (startsWith (mimetype file) (js "image/")) eqn:Htype; [|discriminate].
    cbn [negb] in Hup.
    destruct (too_large (N.of_nat (length (buffer file)))) eqn:Hsize; [discriminate|].
    destruct (upload_array (S seen) rest) as [e|files] eqn:Hrest; [discriminate|].
    injection Hup as <-.
    destruct (IH (S seen) files Hrest) as (-> & Hvalid & Hcount).
    split; [reflexivity|]. split.
    + cbn [forallb]. unfold valid_upload at 1. rewrite Hfield, Htype, Hvalid, Hsize.
      reflexivity.
    + right. destruct Hcount as [->|Hcount]; simpl in *; lia.
Qed.

Lemma upload_array_refuses_count (pre : list File) (extra : File) (post : list File) :
  forall seen : nat,
  Forall (fun f => valid_upload f = true) pre ->
  (seen + length pre = limits.files)%nat ->
  upload_array seen (pre ++ extra :: post)
  = inl (MulterError "LIMIT_FILE_COUNT" "Too many files").
Proof.
  induction pre as [|f pre IH]; intros seen Hvalid Hcount.
  - simpl in Hcount. cbn [app upload_array].
    assert (Nat.leb limits.files seen = true) as -> by (apply Nat.leb_le; lia).
    reflexivity.
  - inversion Hvalid as [|? ? Hf Hrest]; subst. simpl in Hcount.
    unfold valid_upload in Hf.
    apply andb_true_iff in Hf as [[Hffield Hftype]%andb_true_iff Hfsize].
    apply negb_true_iff in Hfsize.
    cbn [app upload_array]. unfold fileFilter.
    assert (Nat.leb limits.files seen = false) as -> by (apply Nat.leb_gt; lia).
    rewrite Hffield, Hftype. cbn [negb].
    rewrite Hfsize.
    rewrite IH; [reflexivity|assumption|lia].
Qed.


(** A request with more than 20 file parts, the first 20 of them
    acceptable, is answered 400 with the message of the file-count limit,
    whatever the parts beyond the twentieth are: nothing is streamed and no
    audit row is sent. *)
Theorem too_many_files_answer connected reply now req pre extra post :
  parts req = pre ++ extra :: post ->
  Forall (fun f => valid_upload f = true) pre ->
  length pre = limits.files ->
  serve (post_convert connected reply now req)
  = answered 400 (JObj [("error"%string, JStr (js "Too many files. Maximum is 20 files."))]).
Proof.
  intros Hparts Hvalid Hcount. unfold post_convert.
  rewrite Hparts, (upload_array_refuses_count pre extra post 0 Hvalid Hcount).
  reflexivity.
Qed.


(** A request without any file part is answered 400 with
    [{ error: "No images provided" }], whatever its form fields are, even a
    [filename] field that is no string: no header of a PDF response is set,
    nothing is streamed and no audit row is sent. *)
Theorem no_files_answer connected reply now req :
  parts req = [] ->
  serve (post_convert connected reply now req)
  = answered 400 (JObj [("error"%string, JStr (js "No images provided"))]).
Proof.
  intros Hparts. unfold post_convert. rewrite Hparts. apply convert_served_no_files.
Qed.

(** ** The audit row, the headers, a failure in mid-stream *)

Lemma or_anonymous_not_empty (v : option jsstring) : or_anonymous v <> [].
Proof.
  unfold or_anonymous. destruct v as [[|c s]|]; simpl; discriminate.
Qed.

Lemma requested_name_string (req : Request) (s : jsstring) :
  with_default (JString (js "converted")) (body_filename req) = JString s ->
  requested_name req = s.
Proof. unfold requested_name. now intros ->. Qed.

(** What [POST /convert] leaves behind, case by case. *)
Lemma post_convert_cases connected reply now req :
  let w := serve (post_convert connected reply now req) in
  (fails_before_streaming req = true /\ exists st v, w = answered st v)
  \/ (fails_before_streaming req = false
      /\ upload_array 0 (parts req) = inr (parts req)
      /\ with_default (JString (js "converted")) (body_filename req)
         = JString (requested_name req)
      /\ exists ops pg,
           w = {| res := {| statusCode := 200;
                            headers := stream_headers (requested_name req);
                            headersSent := true;
                            body := map PdfBytes (PdfHeader :: ops ++ [PdfEnd]);
                            ended := true |};
                  doc := Some {| pages := pg; pending := []; piped := true;
                                 finalized := true |};
                  inserted := if connected
                              then [audit_row now req (parts req) (requested_name req)]
                              else [] |}
           \/ w = streaming 200 (stream_headers (requested_name req)) true
                            (map PdfBytes (PdfHeader :: ops)) pg [] []).
Proof.
  intros w. subst w. unfold post_convert, fails_before_streaming.
  destruct (upload_array 0 (parts req)) as [error|req_files] eqn:Hup.
  - left. split; [reflexivity|].
    destruct (error_middleware_served error) as (st & v & -> & _). eauto.
  - destruct (upload_array_inr _ _ _ Hup) as (-> & _ & _).
    destruct (parts req) as [|file rest] eqn:Hparts.
    + left. split; [reflexivity|]. rewrite convert_served_no_files. eauto.
    + destruct (filename_cases (body_filename req)) as [[s Hname]|Hname].
      * right.
        assert (fails : is_nil (file :: rest)
                        || match body_filename req with JNonString => true | _ => false end
                        = false).
        { destruct (body_filename req); try reflexivity. discriminate. }
        split; [exact fails|]. split; [reflexivity|].
        rewrite (requested_name_string req s Hname). split; [exact Hname|].
        destruct (convert_served connected reply now req (file :: rest) s eq_refl Hname)
          as (r & hs & bd & pg & pend & ops & _ & _ & ->).
        destruct r; [exists (ops ++ flush_page pg), pg; left|exists ops, pg; right];
          rewrite <- ?app_assoc; reflexivity.
      * left. rewrite Hname. split; [reflexivity|].
        rewrite (convert_served_bad_filename _ _ _ _ (file :: rest) eq_refl Hname). eauto.
Qed.

(** An audit row is sent exactly when the connectivity flag is set and the
    conversion ran to its end, and then one row only: it records the
    sanitized name with its ".pdf", the number of files, the level as the
    form gave it ("normal" when absent), the [user-id] header or
    "anonymous", never an empty user, and the time of the insert. A failed
    or refused conversion sends none. *)
Theorem audit_row_sent_once connected reply now req :
  let w := serve (post_convert connected reply now req) in
  inserted w
  = (if connected && completed w
     then [ {| row_filename := sanitize (requested_name req) ++ js ".pdf";
               row_file_count := N.of_nat (length (parts req));
               row_compression_level :=
                 with_default (JString (js "normal")) (body_compressionLevel req);
               row_user_id := or_anonymous (header_user_id req);
               row_created_at := now |} ]
     else [])
  /\ or_anonymous (header_user_id req) <> [].
Proof.
  intros w. split; [|apply or_anonymous_not_empty].
  destruct (post_convert_cases connected reply now req)
    as [(_ & st & v & Hw)|(_ & _ & _ & ops & pg & [Hw|Hw])];
    fold w in Hw; rewrite Hw; simpl; rewrite ?andb_false_r, ?andb_true_r;
    reflexivity.
Qed.

(** The content type of every response to [POST /convert] is that of its
    body, and the body is never empty: a response that starts with a JSON
    value is declared as JSON and carries no [Content-Disposition]; one
    that starts with PDF output is declared as [application/pdf] and is an
    attachment named after the sanitized file name. *)
Theorem content_type_matches_body connected reply now req :
  let w := serve (post_convert connected reply now req) in
  match body (res w) with
  | Json _ :: _ =>
      headers (res w) !! "Content-Type"%string = Some (js "application/json; charset=utf-8")
      /\ headers (res w) !! "Content-Disposition"%string = None
  | PdfBytes _ :: _ =>
      headers (res w) !! "Content-Type"%string = Some (js "application/pdf")
      /\ headers (res w) !! "Content-Disposition"%string
         = Some (attachment (sanitize (requested_name req) ++ js ".pdf"))
  | [] => False
  end.
Proof.
  intros w.
  destruct (post_convert_cases connected reply now req)
    as [(_ & st & v & Hw)|(_ & _ & _ & ops & pg & [Hw|Hw])];
    fold w in Hw; rewrite Hw; cbn [res body answered send_json streaming map app headers].
  - split; reflexivity.
  - unfold stream_headers. split; [|apply lookup_insert_eq].
    rewrite lookup_insert_ne by discriminate. apply lookup_insert_eq.
  - unfold stream_headers. split; [|apply lookup_insert_eq].
    rewrite lookup_insert_ne by discriminate. apply lookup_insert_eq.
Qed.

Lemma safe_unit_printable (ch : N) :
  safe_unit ch = true -> printable ch = true /\ ch <> 34.
Proof.
  unfold safe_unit, printable. intros H.
  repeat (apply orb_true_iff in H as [H|H]);
    repeat (apply andb_true_iff in H as [? H]);
    repeat match goal with
           | X : (_ <=? _) = true |- _ => apply N.leb_le in X
           | X : (_ =? _) = true |- _ => apply N.eqb_eq in X
           end;
    (split; [apply andb_true_iff; split; apply N.leb_le; lia | lia]).
Qed.

Lemma sanitize_printable (s : jsstring) :
  forallb printable (sanitize s) = true /\ count_occ N.eq_dec (sanitize s) 34 = 0%nat.
Proof.
  pose proof (sanitize_safe s) as Hsafe.
  induction Hsafe as [|ch rest Hch Hrest [IHp IHq]]; [split; reflexivity|].
  destruct (safe_unit_printable ch Hch) as [Hp Hq].
  split.
  - simpl. rewrite Hp, IHp. reflexivity.
  - rewrite count_occ_cons_neq by exact Hq. exact IHq.
Qed.

Lemma attachment_printable (s : jsstring) :
  forallb printable (attachment (sanitize s ++ js ".pdf")) = true
  /\ count_occ N.eq_dec (attachment (sanitize s ++ js ".pdf")) 34 = 2%nat.
Proof.
  destruct (sanitize_printable s) as [Hp Hq]. unfold attachment. split.
  - rewrite !forallb_app, Hp. reflexivity.
  - rewrite !count_occ_app, Hq. reflexivity.
Qed.

(** Whatever file name is requested (quotes, line breaks, characters
    beyond ASCII), the [Content-Disposition] value of a streamed response
    is made of printable ASCII characters only and holds exactly two double
    quotes, those around the file name: the name cannot end the quoted
    string or start another header line. A response without that header is
    one that failed before streaming. *)
Theorem disposition_cannot_be_broken connected reply now req :
  let w := serve (post_convert connected reply now req) in
  match headers (res w) !! "Content-Disposition"%string with
  | Some value =>
      forallb printable value = true
      /\ count_occ N.eq_dec value 34 = 2%nat
      /\ fails_before_streaming req = false
  | None => fails_before_streaming req = true
  end.
Proof.
  intros w.
  destruct (post_convert_cases connected reply now req)
    as [(Hfail & st & v & Hw)|(Hfail & _ & _ & ops & pg & [Hw|Hw])];
    fold w in Hw; rewrite Hw; cbn [res answered send_json streaming headers].
  - exact Hfail.
  - unfold stream_headers. rewrite lookup_insert_eq.
    destruct (attachment_printable (requested_name req)). auto.
  - unfold stream_headers. rewrite lookup_insert_eq.
    destruct (attachment_printable (requested_name req)). auto.
Qed.

Lemma page_loop_fail level pre imgs file post e :
  Forall2 (fun f img => openImage (compressed_bytes (buffer f) level) = inr img) pre imgs ->
  openImage (compressed_bytes (buffer file) level) = inl e ->
  forall st hd hs bd pg pend ins,
  exists hs',
    for_of (pre ++ file :: post) (page_step level) (streaming st hd hs bd pg pend ins)
    = (Throws e,
       streaming st hd hs'
                 (bd ++ map PdfBytes
                          (pend ++ match imgs with
                                   | [] => []
                                   | _ :: _ =>
                                       flush_page pg ++ flat_map page_ops (removelast imgs)
                                   end))
                 (pg ++ map page_of imgs) [] ins).
Proof.
  intros Hall Hfail. induction Hall as [|f img pre imgs Hopen Hall IH];
    intros st hd hs bd pg pend ins.
  - exists (hs || negb (is_nil pend)). cbn [app for_of]. unfold mbind, M_bind.
    rewrite (page_step_fail _ _ _ _ _ _ _ _ _ _ Hfail). simpl. rewrite !app_nil_r.
    reflexivity.
  - cbn [app for_of]. unfold mbind, M_bind.
    rewrite (page_step_ok _ _ _ _ _ _ _ _ _ _ Hopen).
    destruct (IH st hd (hs || negb (is_nil pend)) (bd ++ map PdfBytes pend)
                 (pg ++ [page_of img]) (flush_page pg) ins) as [hs' Hrun].
    exists hs'. unfold mbind, M_bind in Hrun. rewrite Hrun.
    rewrite flush_page_snoc. cbn [map]. rewrite <- !app_assoc.
    destruct imgs as [|img2 imgs]; cbn [removelast flat_map];
      rewrite ?map_app, <- ?app_assoc, ?app_nil_r; reflexivity.
Qed.

(** When the PDF writer cannot open the bytes of a file of an accepted
    request whose file name is absent or a string, the conversion stops
    there. Under status 200 the caller has received the PDF header and the
    pages that were written: those of the files before the failing one,
    but for the last of them, whose page was still waiting for the next
    page to be added. The response is never ended, the files after the
    failing one are not looked at, and no audit row is sent even with the
    connectivity flag set. *)
Theorem unreadable_file_stops_the_stream connected reply now req pre file post imgs e :
  upload_array 0 (parts req) = inr (pre ++ file :: post) ->
  body_filename req <> JNonString ->
  Forall2 (fun f img =>
             openImage (compressed_bytes (buffer f)
                          (with_default (JString (js "normal")) (body_compressionLevel req)))
             = inr img) pre imgs ->
  openImage (compressed_bytes (buffer file)
               (with_default (JString (js "normal")) (body_compressionLevel req)))
  = inl e ->
  let w := serve (post_convert connected reply now req) in
  statusCode (res w) = 200
  /\ body (res w) = map PdfBytes (PdfHeader :: flat_map page_ops (removelast imgs))
  /\ ended (res w) = false
  /\ completed w = false
  /\ (exists d, doc w = Some d /\ pages d = map page_of imgs)
  /\ inserted w = [].
Proof.
  intros Hup Hstr Hall Hfail w. subst w.
  destruct (string_filename _ Hstr) as [s Hname].
  rewrite (post_convert_accepted _ _ _ _ _ Hup).
  assert (is_nil (pre ++ file :: post) = false) as Hfiles by now destruct pre.
  destruct (convert_served connected reply now req (pre ++ file :: post) s Hfiles Hname)
    as (r & hs & bd & pg & pend & ops & Hrun & Hout & ->).
  destruct (page_loop_fail _ pre imgs file post e Hall Hfail
              200 (stream_headers s) false [] [] [PdfHeader] []) as [hs' Hrun'].
  rewrite Hrun in Hrun'.
  pose proof (f_equal fst Hrun') as Hr. pose proof (f_equal snd Hrun') as Hw.
  simpl in Hr, Hw. subst r.
  apply streaming_inj in Hw as (-> & -> & -> & ->).
  simpl in Hout. injection Hout as Hops. rewrite app_nil_r in Hops.
  apply PdfBytes_map_inj in Hops.
  assert (ops = flat_map page_ops (removelast imgs)) as ->.
  { rewrite <- Hops. destruct imgs; reflexivity. }
  cbn [res streaming statusCode body ended completed doc finalized inserted].
  repeat split; try reflexivity. eexists. split; reflexivity.
Qed.

Lemma underscore_unless_safe_fix (ch : N) :
  underscore_unless_safe ch = ch <-> safe_unit ch = true.
Proof.
  unfold underscore_unless_safe. split.
  - destruct (safe_unit ch) eqn:E; [reflexivity|]. intros <-. discriminate.
  - intros ->. reflexivity.
Qed.

Lemma sanitize_unchanged (s : jsstring) :
  sanitize s = s <-> forallb safe_unit s = true.
Proof.
  rewrite sanitize_map. induction s as [|ch s IH]; simpl; [tauto|].
  rewrite andb_true_iff, <- IH, <- underscore_unless_safe_fix. split.
  - intros [= -> ->]. auto.
  - intros [-> ->]. reflexivity.
Qed.

(** The client saves the download under the name typed by the user plus
    ".pdf", whatever the server announces. For a request sent by the
    client and accepted with at least one file, the attachment name
    announced by the server is that same name exactly when every character
    typed is in [[A-Za-z0-9_-]]; otherwise the two names differ. *)
Theorem client_and_server_names connected reply now files level filename :
  upload_array 0 (parts (App.handleConvert files level filename))
  = inr (parts (App.handleConvert files level filename)) ->
  files <> [] ->
  let w := serve (post_convert connected reply now (App.handleConvert files level filename)) in
  headers (res w) !! "Content-Disposition"%string
  = Some (attachment (sanitize filename ++ js ".pdf"))
  /\ (sanitize filename ++ js ".pdf" = App.download_name filename
      <-> forallb safe_unit filename = true).
Proof.
  intros Hup Hfiles w. split.
  - apply (served_disposition _ _ _ _ _ _ Hup); [|reflexivity].
    simpl. destruct files; [contradiction|discriminate].
  - unfold App.download_name. rewrite <- sanitize_unchanged. split.
    + intros H. now apply app_inv_tail in H.
    + intros ->. reflexivity.
Qed.

(** ** Start-up and the history reader *)

Lemma startup_flag import_ok env createClient_ok probe :
  startup import_ok env createClient_ok probe
  = import_ok && configured env && createClient_ok && negb (rejects probe).
Proof.
  unfold startup, configured.
  destruct import_ok; [|reflexivity]. cbn [negb andb].
  destruct (truthy (SUPABASE_URL env) && truthy (SUPABASE_ANON_KEY env)
            && negb (is_string (SUPABASE_URL env) "https://your-project-id.supabase.co")
            && negb (is_string (SUPABASE_URL env) "https://your-project.supabase.co"));
    [|reflexivity].
  destruct createClient_ok; [|reflexivity]. destruct probe; reflexivity.
Qed.

(** Without usable Supabase settings (a variable missing or empty, or the
    URL left at one of the two placeholders) the service runs without the
    store, whatever the store would answer: the flag is not set, the
    history is the empty array, and a conversion sends no audit row. *)
Theorem without_settings_no_store import_ok env createClient_ok probe
        select_reply insert_reply now req :
  configured env = false ->
  let supabaseConnected := startup import_ok env createClient_ok probe in
  supabaseConnected = false
  /\ serve (get_conversions supabaseConnected select_reply) = answered 200 (JArr [])
  /\ inserted (serve (post_convert supabaseConnected insert_reply now req)) = [].
Proof.
  intros Hconf supabaseConnected. subst supabaseConnected.
  rewrite startup_flag, Hconf, andb_false_r. cbn [andb].
  split; [reflexivity|]. split; [reflexivity|].
  destruct (post_convert_cases false insert_reply now req)
    as [(_ & st & v & ->)|(_ & _ & _ & ops & pg & [->| ->])]; reflexivity.
Qed.

(** With usable settings, the flag is set as soon as the start-up probe
    resolves, also when it resolves with an error: the result of the probe
    is not looked at. From then on a failing store makes the history
    reader answer 500. *)
Theorem resolved_probe_sets_the_flag env data error select_reply :
  configured env = true ->
  store_fails select_reply = true ->
  let supabaseConnected := startup true env true (Resolves data error) in
  supabaseConnected = true
  /\ serve (get_conversions supabaseConnected select_reply)
     = answered 500 (JObj [("error"%string, JStr (js "Failed to fetch conversions"))]).
Proof.
  intros Hconf Hfail supabaseConnected. subst supabaseConnected.
  rewrite startup_flag, Hconf. cbn [andb negb rejects].
  split; [reflexivity|].
  destruct select_reply as [e|d [err|]]; try discriminate; reflexivity.
Qed.

(** [GET /conversions] always answers with one JSON body. Under status
    200 it is what the store returned as data, or the empty array when
    that is falsy ([null], [0], the empty string) or the flag is not set;
    under status 500 it is the error object, exactly when the flag is set
    and the store fails. *)
Theorem history_reader_outcome (supabaseConnected : bool) (reply : store_reply) :
  serve (get_conversions supabaseConnected reply)
  = answered (if supabaseConnected && store_fails reply then 500 else 200)
             (if negb supabaseConnected then JArr []
              else match reply with
                   | Resolves (Some rows) None => if json_truthy rows then rows else JArr []
                   | Resolves None None => JArr []
                   | _ => JObj [("error"%string, JStr (js "Failed to fetch conversions"))]
                   end).
Proof.
  destruct supabaseConnected; [|reflexivity].
  destruct reply as [e|[rows|] [err|]]; reflexivity.
Qed.

(** ** Tier names in the client, the adapter and the table *)

Lemma names_a_tier_check (v : jsval) :
  Schema.compression_level_check (with_default (JString (js "normal")) v) = names_a_tier v.
Proof. destruct v; reflexivity. Qed.

(** The level a preset button stores is always one of the three tier
    names, for every preset value: the table's CHECK constraint accepts it,
    and the adapter selects for it the quality it selects for the preset
    value itself. *)
Theorem preset_is_a_tier (preset : jsval) :
  Schema.compression_level_check (JString (App.setCompressionPreset preset)) = true
  /\ quality_of (JString (App.setCompressionPreset preset)) = quality_of preset.
Proof.
  unfold App.setCompressionPreset, quality_of.
  destruct (strict_eq_str preset (js "ultra")) eqn:Hu; [split; reflexivity|].
  destruct (strict_eq_str preset (js "compressed")) eqn:Hc; [split; reflexivity|].
  split; [reflexivity|].
  destruct (strict_eq_str preset (js "normal")); reflexivity.
Qed.

(** The audit row of a conversion passes the table's CHECK on
    [compression_level] exactly when the form's [compressionLevel] is
    absent or one of the three tier names. Any other level is converted at
    quality 90 all the same, and the row sent for it is one the table
    refuses. *)
Theorem audit_level_against_table connected reply now req :
  let w := serve (post_convert connected reply now req) in
  Forall (fun row =>
            Schema.compression_level_check (row_compression_level row)
            = names_a_tier (body_compressionLevel req))
         (inserted w)
  /\ (if names_a_tier (body_compressionLevel req) then True
      else quality_of (with_default (JString (js "normal")) (body_compressionLevel req)) = 90).
Proof.
  intros w. split.
  - destruct (post_convert_cases connected reply now req)
      as [(_ & st & v & Hw)|(_ & _ & _ & ops & pg & [Hw|Hw])];
      fold w in Hw; rewrite Hw; cbn [inserted answered streaming]; try constructor.
    destruct connected; constructor; [|constructor].
    apply names_a_tier_check.
  - unfold names_a_tier, quality_of.
    destruct (body_compressionLevel req) as [|s|]; cbn [with_default strict_eq_str];
      try reflexivity.
    destruct (str_eqb s (js "normal")), (str_eqb s (js "compressed")),
             (str_eqb s (js "ultra")); reflexivity.
Qed.

(** ** Logging a conversion *)

(** [POST /conversions] never lets an exception escape (the handler
    returns) and always ends the response. With the flag not set it
    answers 200 with [{ message: "Database not available" }] without
    asking the store. With the flag set it answers 500 with
    [{ error: "Failed to log conversion" }] exactly when the store call
    rejects, resolves with an error or returns [null] as data (the row may
    have been inserted all the same); otherwise it answers 200 with
    [data[0]]: the first row when data is an array that has one, an empty
    body when [data[0]] is [undefined]. *)
Theorem log_conversion_outcome (Value : Type) (truthy_value : Value -> bool)
        (string_value : jsstring -> Value) supabaseConnected store now
        (payload : log_body Value) :
  fst (log_conversion Value truthy_value string_value supabaseConnected store now payload
                      initial_world)
  = Returns tt
  /\ serve (log_conversion Value truthy_value string_value
                           supabaseConnected store now payload)
     = match supabaseConnected,
             store (logged_row Value truthy_value string_value now payload) with
       | false, _ =>
           answered 200 (JObj [("message"%string, JStr (js "Database not available"))])
       | true, Resolves (Some (JArr (row :: _))) None => answered 200 row
       | true, Resolves (Some (JArr [])) None => answered_nothing 200
       | true, Resolves (Some (JStr (c :: _))) None => answered 200 (JStr [c])
       | true, Resolves (Some (JStr [])) None => answered_nothing 200
       | true, Resolves (Some (JNum _)) None => answered_nothing 200
       | true, Resolves (Some (JObj fields)) None =>
           match property_0 fields with
           | ElementOf v => answered 200 v
           | NoElement => answered_nothing 200
           end
       | true, _ =>
           answered 500 (JObj [("error"%string, JStr (js "Failed to log conversion"))])
       end.
Proof.
  unfold log_conversion, logged_row.
  destruct supabaseConnected; [|split; reflexivity]. cbn [negb].
  destruct (store _) as [e|[[|n|[|c s]|[|row items]|fields]|] [err|]];
    try (split; reflexivity).
  unfold serve, try_catch, await, mbind, M_bind. cbn [supabase_call first_element].
  destruct (property_0 fields); split; reflexivity.
Qed.

(** A missing, empty or otherwise falsy [user_id] is logged under the user
    "anonymous": the request is served as the one that names that user. *)
Theorem falsy_user_is_anonymous (Value : Type) (truthy_value : Value -> bool)
        (string_value : jsstring -> Value) supabaseConnected store now
        (payload : log_body Value) :
  truthy_value (log_user_id Value payload) = false ->
  ins_user_id Value (logged_row Value truthy_value string_value now payload)
  = string_value (js "anonymous")
  /\ serve (log_conversion Value truthy_value string_value supabaseConnected store now payload)
     = serve (log_conversion Value truthy_value string_value supabaseConnected store now
                {| log_filename := log_filename Value payload;
                   log_file_count := log_file_count Value payload;
                   log_compression_level := log_compression_level Value payload;
                   log_user_id := string_value (js "anonymous") |}).
Proof.
  intros Hfalsy. unfold logged_row, log_conversion. cbn [log_filename log_file_count
    log_compression_level log_user_id ins_user_id]. rewrite Hfalsy.
  split; [reflexivity|].
  destruct (truthy_value (string_value (js "anonymous"))); reflexivity.
Qed.

(** ** The restore script *)

(** The restore script resets the database only when it was given the name
    of an existing backup file, the Supabase CLI is installed and the
    confirmation read is exactly [y] or [Y]; and it tries to load the
    backup only after a reset that succeeded. *)
Theorem reset_needs_confirmation (r : Restore.Run) :
  In Restore.DbReset (fst (Restore.restore r)) ->
  Restore.argument r <> ""%string
  /\ Restore.backup_exists r = true
  /\ Restore.supabase_cli r = true
  /\ (Restore.REPLY r = "y"%string \/ Restore.REPLY r = "Y"%string)
  /\ (In (Restore.PsqlRestore (Restore.argument r)) (fst (Restore.restore r)) ->
      Restore.reset_ok r = true).
Proof.
  unfold Restore.restore, Restore.confirmed.
  destruct (String.eqb (Restore.argument r) "") eqn:Harg; [intros []|].
  destruct (Restore.backup_exists r); [|intros []].
  destruct (Restore.supabase_cli r); [|intros []].
  cbn [negb].
  destruct (String.eqb (Restore.REPLY r) "y") eqn:Hy;
    [|destruct (String.eqb (Restore.REPLY r) "Y") eqn:HY; [|intros []]];
    cbn [orb negb]; intros _;
    (split; [intros E; rewrite E in Harg; discriminate|]);
    (split; [reflexivity|]); (split; [reflexivity|]);
    (split; [first [left; now apply String.eqb_eq | right; now apply String.eqb_eq]|]);
    destruct (Restore.reset_ok r); cbn [negb fst]; try reflexivity;
    intros [H|[]]; discriminate.
Qed.

(** The restore script exits with status 0 in two cases only: the
    confirmation was not given and no command was run, or the database was
    reset and the backup loaded by [psql] or, failing that, by the Supabase
    shell. When the reset succeeds and neither can load the backup, it
    exits with status 1 and the database stays reset. *)
Theorem restore_exit_status (r : Restore.Run) :
  match snd (Restore.restore r) with
  | 0 =>
      fst (Restore.restore r) = []
      /\ Restore.confirmed (Restore.REPLY r) = false
      \/ (exists loads,
            fst (Restore.restore r)
            = Restore.DbReset :: loads ++ [Restore.CountConversions]
            /\ Restore.reset_ok r = true
            /\ Restore.psql_ok r || Restore.shell_ok r = true)
  | _ =>
      fst (Restore.restore r) = []
      \/ fst (Restore.restore r) = [Restore.DbReset] /\ Restore.reset_ok r = false
      \/ (In Restore.DbReset (fst (Restore.restore r))
          /\ Restore.reset_ok r = true
          /\ Restore.psql_ok r || Restore.shell_ok r = false)
  end.
Proof.
  unfold Restore.restore.
  destruct (String.eqb (Restore.argument r) ""); [left; reflexivity|].
  destruct (Restore.backup_exists r); [|left; reflexivity].
  destruct (Restore.supabase_cli r); [|left; reflexivity].
  destruct (Restore.confirmed (Restore.REPLY r)); [|left; split; reflexivity].
  destruct (Restore.reset_ok r); cbn [negb snd fst]; [|right; left; split; reflexivity].
  destruct (Restore.psql_ok r); cbn [snd fst orb].
  - right. exists [Restore.PsqlRestore (Restore.argument r)]. repeat split; reflexivity.
  - destruct (Restore.shell_ok r); cbn [snd fst].
    + right. exists [Restore.PsqlRestore (Restore.argument r);
                     Restore.ShellRestore (Restore.argument r)].
      repeat split; reflexivity.
    + right. right. repeat split; try reflexivity. left. reflexivity.
Qed.

End Server.






(** * The theorems at work on explicit requests *)

Lemma quality_by_tier_witness :
  JString (js "lossless") <> JString (js "compressed")
  /\ JString (js "lossless") <> JString (js "ultra")
  /\ quality_of (JString (js "lossless")) = quality_of (JString (js "normal")).
Proof.
  assert (JString (js "lossless") <> JString (js "compressed")) as Hc
    by (vm_compute; discriminate).
  assert (JString (js "lossless") <> JString (js "ultra")) as Hu
    by (vm_compute; discriminate).
  split; [exact Hc|]. split; [exact Hu|].
  destruct (quality_by_tier Sample.encoder [] (JString (js "lossless")) initial_world)
    as (_ & _ & _ & _ & _ & H & _).
  exact (H Hc Hu).
Defined.

Lemma disallowed_units_become_underscores_witness :
  headers (res (serve (post_convert Sample.no_case_pairs Sample.encoder Sample.decoder
                         Fixtures.full_size_refused
                         false (Resolves None None) Sample.timestamp
                         (Sample.form JUndefined (JString (js "My File!@#.pdf"))
                                      [Sample.photo]))))
    !! "Content-Disposition"%string
  = Some (attachment (js "My_File____pdf.pdf")).
Proof.
  destruct (disallowed_units_become_underscores
              Sample.no_case_pairs Sample.encoder Sample.decoder
              Fixtures.full_size_refused
              false (Resolves None None) Sample.timestamp
              (Sample.form JUndefined (JString (js "My File!@#.pdf")) [Sample.photo])
              [Sample.photo] (js "My File!@#.pdf"))
    as [H _].
  - reflexivity.
  - discriminate.
  - reflexivity.
  - rewrite H. reflexivity.
Defined.

Lemma disallowed_units_replaced_not_removed_witness :
  length (sanitize Sample.no_case_pairs (js "My File")) = length (js "My File")
  /\ In 95 (sanitize Sample.no_case_pairs (js "My File")).
Proof.
  destruct (disallowed_units_replaced_not_removed
              Sample.no_case_pairs Sample.encoder Sample.decoder
              Fixtures.full_size_refused
              false (Resolves None None) Sample.timestamp
              (Sample.form JUndefined (JString (js "My File")) [Sample.photo])
              [Sample.photo] (js "My File"))
    as (_ & _ & Hin & Hlen).
  - reflexivity.
  - discriminate.
  - reflexivity.
  - reflexivity.
  - split; [exact Hlen|exact Hin].
Defined.

(** The name "My File" holds a space, and its sanitized form "My_File" is
    as long as the name: nothing is removed from it. *)
Lemma stripping_claim_fails :
  existsb (fun ch => negb (safe_unit ch)) (js "My File") = true
  /\ sanitize Sample.no_case_pairs (js "My File") = js "My_File"
  /\ ~ (length (sanitize Sample.no_case_pairs (js "My File")) < length (js "My File"))%nat.
Proof.
  split; [reflexivity|]. split; [reflexivity|].
  vm_compute. lia.
Qed.

Lemma non_image_upload_answer_witness :
  statusCode (res (serve (post_convert Sample.no_case_pairs Sample.encoder Sample.decoder
                            Fixtures.full_size_refused
                            false (Resolves None None) Sample.timestamp
                            (Sample.form JUndefined JUndefined [Sample.notes]))))
  = 500.
Proof.
  rewrite (non_image_upload_answer
             Sample.no_case_pairs Sample.encoder Sample.decoder
             Fixtures.full_size_refused
             false (Resolves None None) Sample.timestamp
             (Sample.form JUndefined JUndefined [Sample.notes])
             [] Sample.notes []).
  - reflexivity.
  - reflexivity.
  - constructor.
  - vm_compute. lia.
  - reflexivity.
  - reflexivity.
Defined.

Lemma store_failure_handling_witness :
  store_fails (Resolves None (Some Sample.network_error)) = true
  /\ serve (get_conversions false (Resolves None (Some Sample.network_error)))
     = answered 200 (JArr [])
  /\ res (serve (post_convert Sample.no_case_pairs Sample.encoder Sample.decoder
                   Fixtures.full_size_refused
                   true (Resolves None (Some Sample.network_error)) Sample.timestamp
                   (Sample.form JUndefined JUndefined [Sample.photo])))
     = res (serve (post_convert Sample.no_case_pairs Sample.encoder Sample.decoder
                     Fixtures.full_size_refused
                     false (Resolves None None) Sample.timestamp
                     (Sample.form JUndefined JUndefined [Sample.photo]))).
Proof.
  destruct (store_failure_handling
              Sample.no_case_pairs Sample.encoder Sample.decoder
              Fixtures.full_size_refused
              (Resolves None (Some Sample.network_error)) true false (Resolves None None)
              Sample.timestamp (Sample.form JUndefined JUndefined [Sample.photo]))
    as (Hget & _ & Hres & _).
  - reflexivity.
  - split; [reflexivity|]. split; [exact Hget|exact Hres].
Defined.

(** The store answered the probe at start-up, so the flag is set; it is
    unreachable when the history is requested: the answer is status 500
    with an error body, not the empty array. *)
Lemma history_claim_fails :
  startup true
          {| SUPABASE_URL := Some (js "https://db.example.supabase.co");
             SUPABASE_ANON_KEY := Some (js "anon-key") |}
          true (Resolves (Some (JArr [])) None)
  = true
  /\ store_fails (Resolves None (Some Sample.network_error)) = true
  /\ serve (get_conversions true (Resolves None (Some Sample.network_error)))
     = answered 500 (JObj [("error"%string, JStr (js "Failed to fetch conversions"))])
  /\ body (res (serve (get_conversions true (Resolves None (Some Sample.network_error)))))
     <> [Json (JArr [])].
Proof.
  split; [reflexivity|]. split; [reflexivity|]. split; [reflexivity|].
  vm_compute. discriminate.
Qed.

(** One upload declared as an image that no collaborator can read: the
    upload stage accepts it, processing fails at its page, and the caller
    has received the PDF header under status 200 and no JSON body. *)
Lemma failure_claim_fails :
  upload_array Fixtures.full_size_refused 0 [Sample.garbage] = inr [Sample.garbage]
  /\ completed (serve (post_convert Sample.no_case_pairs Sample.encoder Sample.decoder
                         Fixtures.full_size_refused
                         false (Resolves None None) Sample.timestamp
                         (Sample.form JUndefined JUndefined [Sample.garbage])))
     = false
  /\ is_json_error
       (res (serve (post_convert Sample.no_case_pairs Sample.encoder Sample.decoder
                      Fixtures.full_size_refused
                      false (Resolves None None) Sample.timestamp
                      (Sample.form JUndefined JUndefined [Sample.garbage]))))
     = false
  /\ body (res (serve (post_convert Sample.no_case_pairs Sample.encoder Sample.decoder
                         Fixtures.full_size_refused
                         false (Resolves None None) Sample.timestamp
                         (Sample.form JUndefined JUndefined [Sample.garbage]))))
     = [PdfBytes PdfHeader]
  /\ statusCode
       (res (serve (post_convert Sample.no_case_pairs Sample.encoder Sample.decoder
                      Fixtures.full_size_refused
                      false (Resolves None None) Sample.timestamp
                      (Sample.form JUndefined JUndefined [Sample.garbage]))))
     = 200.
Proof. repeat split; vm_compute; reflexivity. Qed.



Lemma pages_match_images_witness :
  exists d,
    doc (serve (post_convert Sample.no_case_pairs Sample.encoder Sample.decoder
                  Fixtures.full_size_refused
                  false (Resolves None None) Sample.timestamp
                  (Sample.form (JString (js "compressed")) JUndefined
                               [Sample.photo; Sample.odd_photo])))
    = Some d
    /\ length (pages d) = 2%nat.
Proof.
  destruct (pages_match_images
              Sample.no_case_pairs Sample.encoder Sample.decoder
              Fixtures.full_size_refused
              false (Resolves None None) Sample.timestamp
              (Sample.form (JString (js "compressed")) JUndefined
                           [Sample.photo; Sample.odd_photo])
              [ {| width := 4; height := 3;
                   image_data := [Byte.xff; Byte.xd8; Byte.x04; Byte.x03; Byte.x3c] |};
                {| width := 2; height := 2; image_data := buffer Sample.odd_photo |} ])
    as (d & Hdoc & Hlen & _).
  - repeat constructor.
  - vm_compute. lia.
  - discriminate.
  - repeat constructor.
  - exists d. split; [exact Hdoc|exact Hlen].
Defined.

(** Two requests that satisfy the stated conditions of validity (one part
    under [images], declared as an image, two bytes long) and do not get a
    PDF of one page: one whose bytes no collaborator can read, whose
    document stays without a page and whose response is never ended; one
    whose [filename] field is repeated, which is answered 500 before any
    document exists. *)
Lemma pages_claim_fails :
  forallb (valid_upload Fixtures.full_size_refused) [Sample.garbage] = true
  /\ option_map (fun d => length (pages d))
                (doc (serve (post_convert Sample.no_case_pairs Sample.encoder Sample.decoder
                               Fixtures.full_size_refused false (Resolves None None)
                               Sample.timestamp
                               (Sample.form JUndefined JUndefined [Sample.garbage]))))
     = Some 0%nat
  /\ ended (res (serve (post_convert Sample.no_case_pairs Sample.encoder Sample.decoder
                          Fixtures.full_size_refused false (Resolves None None)
                          Sample.timestamp
                          (Sample.form JUndefined JUndefined [Sample.garbage]))))
     = false
  /\ forallb (valid_upload Fixtures.full_size_refused) [Sample.photo] = true
  /\ serve (post_convert Sample.no_case_pairs Sample.encoder Sample.decoder
              Fixtures.full_size_refused false (Resolves None None) Sample.timestamp
              (Sample.form JUndefined JNonString [Sample.photo]))
     = answered 500 (JObj [("error"%string, JStr (js "Conversion failed"));
                           ("message"%string,
                            JStr (js "filename.replace is not a function"))]).
Proof. repeat split; vm_compute; reflexivity. Qed.

(** * The further properties at work *)

Lemma too_many_files_answer_witness :
  statusCode (res (serve (post_convert Sample.no_case_pairs Sample.encoder Sample.decoder
                            Fixtures.full_size_refused
                            false (Resolves None None) Sample.timestamp
                            (Sample.form JUndefined JUndefined Fixtures.too_many))))
  = 400.
Proof.
  rewrite (too_many_files_answer
             Sample.no_case_pairs Sample.encoder Sample.decoder
             Fixtures.full_size_refused
             false (Resolves None None) Sample.timestamp
             (Sample.form JUndefined JUndefined Fixtures.too_many)
             (repeat Sample.photo 20) Sample.photo []).
  - reflexivity.
  - reflexivity.
  - repeat constructor.
  - reflexivity.
Defined.


Lemma no_files_answer_witness :
  serve (post_convert Sample.no_case_pairs Sample.encoder Sample.decoder
           Fixtures.full_size_refused
           true (Resolves None None) Sample.timestamp
           (Sample.form JUndefined JNonString []))
  = answered 400 (JObj [("error"%string, JStr (js "No images provided"))]).
Proof.
  apply (no_files_answer Sample.no_case_pairs Sample.encoder Sample.decoder).
  reflexivity.
Defined.

Lemma unreadable_file_stops_the_stream_witness :
  body (res (serve (post_convert Sample.no_case_pairs Sample.encoder Sample.decoder
                      Fixtures.full_size_refused true (Resolves None None) Sample.timestamp
                      (Sample.form JUndefined JUndefined
                                   [Sample.photo; Sample.odd_photo; Sample.garbage;
                                    Sample.photo]))))
  = map PdfBytes
        (PdfHeader
         :: page_ops {| width := 4; height := 3;
                        image_data := [Byte.xff; Byte.xd8; Byte.x04; Byte.x03; Byte.x5a] |})
  /\ inserted (serve (post_convert Sample.no_case_pairs Sample.encoder Sample.decoder
                        Fixtures.full_size_refused true (Resolves None None)
                        Sample.timestamp
                        (Sample.form JUndefined JUndefined
                                     [Sample.photo; Sample.odd_photo; Sample.garbage;
                                      Sample.photo])))
     = [].
Proof.
  destruct (unreadable_file_stops_the_stream
              Sample.no_case_pairs Sample.encoder Sample.decoder
              Fixtures.full_size_refused
              true (Resolves None None) Sample.timestamp
              (Sample.form JUndefined JUndefined
                           [Sample.photo; Sample.odd_photo; Sample.garbage; Sample.photo])
              [Sample.photo; Sample.odd_photo] Sample.garbage [Sample.photo]
              [ {| width := 4; height := 3;
                   image_data := [Byte.xff; Byte.xd8; Byte.x04; Byte.x03; Byte.x5a] |};
                {| width := 2; height := 2; image_data := buffer Sample.odd_photo |} ]
              (Error "Unknown image format."))
    as (_ & Hbody & _ & _ & _ & Hrows).
  - reflexivity.
  - discriminate.
  - repeat constructor.
  - reflexivity.
  - split; [rewrite Hbody; reflexivity|exact Hrows].
Defined.

Lemma client_and_server_names_witness :
  headers (res (serve (post_convert Sample.no_case_pairs Sample.encoder Sample.decoder
                         Fixtures.full_size_refused
                         false (Resolves None None) Sample.timestamp
                         (App.handleConvert
                            [ {| App.file_name := js "a.jpg";
                                 App.file_type := js "image/jpeg";
                                 App.file_bytes := buffer Sample.photo |} ]
                            (js "normal") (js "my-document")))))
    !! "Content-Disposition"%string
  = Some (attachment (App.download_name (js "my-document"))).
Proof.
  destruct (client_and_server_names
              Sample.no_case_pairs Sample.encoder Sample.decoder
              Fixtures.full_size_refused
              false (Resolves None None) Sample.timestamp
              [ {| App.file_name := js "a.jpg"; App.file_type := js "image/jpeg";
                   App.file_bytes := buffer Sample.photo |} ]
              (js "normal") (js "my-document"))
    as [Hname Hsame].
  - reflexivity.
  - discriminate.
  - rewrite Hname. apply proj2 in Hsame. rewrite Hsame; reflexivity.
Defined.

Lemma without_settings_no_store_witness :
  startup true Fixtures.placeholder_env true (Resolves (Some (JArr [])) None) = false.
Proof.
  destruct (without_settings_no_store
              Sample.no_case_pairs Sample.encoder Sample.decoder
              Fixtures.full_size_refused
              true Fixtures.placeholder_env true (Resolves (Some (JArr [])) None)
              (Resolves None None) (Resolves None None) Sample.timestamp
              (Sample.form JUndefined JUndefined [Sample.photo]))
    as (Hflag & _).
  - reflexivity.
  - exact Hflag.
Defined.

Lemma resolved_probe_sets_the_flag_witness :
  startup true Fixtures.supabase_env true (Resolves None (Some Sample.network_error)) = true.
Proof.
  destruct (resolved_probe_sets_the_flag
              Fixtures.supabase_env None (Some Sample.network_error)
              (Rejects Sample.network_error))
    as (Hflag & _).
  - reflexivity.
  - reflexivity.
  - exact Hflag.
Defined.

Lemma falsy_user_is_anonymous_witness :
  ins_user_id (option jsstring)
    (logged_row (option jsstring) truthy Some Sample.timestamp
       {| log_filename := Some (js "scan.pdf"); log_file_count := Some (js "2");
          log_compression_level := Some (js "normal"); log_user_id := Some [] |})
  = Some (js "anonymous").
Proof.
  destruct (falsy_user_is_anonymous
              (option jsstring) truthy Some true (fun _ => Resolves None None)
              Sample.timestamp
              {| log_filename := Some (js "scan.pdf"); log_file_count := Some (js "2");
                 log_compression_level := Some (js "normal"); log_user_id := Some [] |})
    as (Huser & _).
  - reflexivity.
  - exact Huser.
Defined.

Lemma reset_needs_confirmation_witness :
  In Restore.DbReset
     (fst (Restore.restore
             {| Restore.argument := "database-backups/latest.sql";
                Restore.backup_exists := true; Restore.supabase_cli := true;
                Restore.REPLY := "y"; Restore.reset_ok := true;
                Restore.psql_ok := false; Restore.shell_ok := true |}))
  /\ Restore.backup_exists
       {| Restore.argument := "database-backups/latest.sql";
          Restore.backup_exists := true; Restore.supabase_cli := true;
          Restore.REPLY := "y"; Restore.reset_ok := true;
          Restore.psql_ok := false; Restore.shell_ok := true |}
     = true.
Proof.
  assert (In Restore.DbReset
             (fst (Restore.restore
                     {| Restore.argument := "database-backups/latest.sql";
                        Restore.backup_exists := true; Restore.supabase_cli := true;
                        Restore.REPLY := "y"; Restore.reset_ok := true;
                        Restore.psql_ok := false; Restore.shell_ok := true |})))
    as Hreset by (left; reflexivity).
  split; [exact Hreset|].
  destruct (reset_needs_confirmation _ Hreset) as (_ & Hfile & _).
  exact Hfile.
Defined.
